(** * dns/rdata.py: the rdata abstraction, the generic variant, the type
    registry and the dispatch entry points, as a shallow embedding. *)

From Stdlib Require Import String Ascii NArith ZArith List Lia.
From Stdlib Require Import Strings.Byte.
From stdpp Require Import base gmap strings list.
Import ListNotations.
Open Scope Z_scope.

(* ------------------------------------------------------------------ *)
(** ** Python values and exceptions *)

(** A Python [bytes] value. *)
Abbreviation bytes := (list byte).

(** The exceptions raised by the code of this module (and by the
    collaborators it calls). *)
Inductive exn :=
  | TypeError                 (* Rdata.__setattr__/__delattr__, bad arity, bad write *)
  | AttributeError            (* replace(), getattr on a module *)
  | SyntaxError (msg : string) (* dns.exception.SyntaxError *)
  | BinasciiError             (* binascii.Error raised by unhexlify *)
  | FormError                 (* dns.exception.FormError from wire slicing *)
  | UngetBufferFull           (* dns.tokenizer.UngetBufferFull *)
  | RdatatypeExists (rdclass rdtype : Z).

(** Result of a Python call: a value, or a raised exception. *)
Inductive res (A : Type) :=
  | Ok (a : A)
  | Err (e : exn).
Arguments Ok {A} a.
Arguments Err {A} e.

Definition res_bind {A B} (m : res A) (k : A -> res B) : res B :=
  match m with Ok a => k a | Err e => Err e end.

Notation "'let!' x := m 'in' k" := (res_bind m (fun x => k))
  (at level 200, x name, m at level 100, k at level 200).

(* ------------------------------------------------------------------ *)
(** ** _truncate_bitmap *)

(** [what[i]] read as an unsigned int. *)
Definition byte_at (what : bytes) (i : nat) : N :=
  Byte.to_N (nth i what x00).

(** [for i in range(len(what) - 1, -1, -1): if what[i] != 0: return what[0:i+1]];
    [k] is the number of indices still to visit, the current one is [k - 1]. *)
Fixpoint truncate_bitmap_loop (what : bytes) (k : nat) : option bytes :=
  match k with
  | O => None
  | S i => if negb (N.eqb (byte_at what i) 0%N)
           then Some (firstn (i + 1) what)
           else truncate_bitmap_loop what i
  end.

(** [_truncate_bitmap(what)]; the fall-through returns [what[0:1]]. *)
Definition _truncate_bitmap (what : bytes) : bytes :=
  match truncate_bitmap_loop what (length what) with
  | Some r => r
  | None => firstn 1 what
  end.

(* ------------------------------------------------------------------ *)
(** ** Python bytes comparison *)

(** [our == their] on bytes. *)
Fixpoint bytes_eqb (a b : bytes) : bool :=
  match a, b with
  | [], [] => true
  | x :: a', y :: b' => Byte.eqb x y && bytes_eqb a' b'
  | _, _ => false
  end.

(** [our > their] on bytes: lexicographic on the unsigned byte values,
    a proper prefix being the smaller. *)
Fixpoint bytes_gt (a b : bytes) : bool :=
  match a, b with
  | [], _ => false
  | _ :: _, [] => true
  | x :: a', y :: b' =>
      if N.ltb (Byte.to_N y) (Byte.to_N x) then true
      else if N.ltb (Byte.to_N x) (Byte.to_N y) then false
      else bytes_gt a' b'
  end.

(* ------------------------------------------------------------------ *)
(** ** Rdata objects *)

(** The Python values stored in rdata attributes. *)
#[warnings="-register-all"]
Inductive pyval :=
  | PyInt (z : Z)
  | PyBytes (b : bytes)
  | PyStr (s : string)
  | PyNone
  | PyTuple (l : list pyval).

(** The rdata classes: [GenericRdata] of this module, and the per-type
    classes of [dns.rdtypes], named by their class name. *)
Inductive RdataClass :=
  | GenericRdata
  | Variant (name : string).

#[global] Instance RdataClass_eq_dec : EqDecision RdataClass.
Proof. solve_decision. Defined.

(** An rdata instance: its class, the two slots of [Rdata] ([rdclass] and
    [rdtype], the ints of the constructor's docstring) and the slots the
    subclass adds, in the order its constructor sets them. *)
Record Rdata := mkRdata {
  rd_class : RdataClass;
  rdclass : Z;
  rdtype : Z;
  rd_fields : list (string * pyval)
}.

Fixpoint assoc_get (k : string) (l : list (string * pyval)) : option pyval :=
  match l with
  | [] => None
  | (k', v) :: l' => if String.eqb k k' then Some v else assoc_get k l'
  end.

(** [getattr(self, key)] on an rdata; [None] is an unset slot. *)
Definition rd_getattr (r : Rdata) (key : string) : option pyval :=
  if String.eqb key "rdclass" then Some (PyInt (rdclass r))
  else if String.eqb key "rdtype" then Some (PyInt (rdtype r))
  else assoc_get key (rd_fields r).

(** Any Python object passed as [other] to the comparison methods. *)
Inductive pyobj :=
  | ORdata (r : Rdata)
  | OOther (v : pyval).

(** What a rich-comparison method returns. *)
Inductive cmp_ret :=
  | PyBool (b : bool)
  | NotImplemented.

Section RdataMethods.

(** The [to_wire] of the per-type classes of [dns.rdtypes]; it may raise. *)
Variable variant_to_wire : string -> Rdata -> res bytes.

(** Python's [hash] on a bytes value. *)
Variable py_hash_bytes : bytes -> Z.

(** [to_wire(file, None, origin)] followed by [f.getvalue()];
    [GenericRdata.to_wire] is [file.write(self.data)], which raises
    [TypeError] when [data] is not bytes-like. *)
Definition to_wire (r : Rdata) : res bytes :=
  match rd_class r with
  | GenericRdata =>
      match rd_getattr r "data" with
      | Some (PyBytes d) => Ok d
      | Some _ => Err TypeError
      | None => Err AttributeError
      end
  | Variant n => variant_to_wire n r
  end.

(** [Rdata.to_digestable(dns.name.root)], the only origin the comparison
    and hashing methods pass. *)
Definition to_digestable (r : Rdata) : res bytes := to_wire r.

(** [Rdata._cmp] *)
Definition _cmp (self other : Rdata) : res Z :=
  let! our := to_digestable self in
  let! their := to_digestable other in
  Ok (if bytes_eqb our their then 0
      else if bytes_gt our their then 1
      else -1).

(** [self.rdclass != other.rdclass or self.rdtype != other.rdtype] *)
Definition differ (self other : Rdata) : bool :=
  negb (Z.eqb (rdclass self) (rdclass other))
  || negb (Z.eqb (rdtype self) (rdtype other)).

Definition __eq__ (self : Rdata) (other : pyobj) : res bool :=
  match other with
  | OOther _ => Ok false
  | ORdata o =>
      if differ self o then Ok false
      else let! c := _cmp self o in Ok (Z.eqb c 0)
  end.

Definition __ne__ (self : Rdata) (other : pyobj) : res bool :=
  match other with
  | OOther _ => Ok true
  | ORdata o =>
      if differ self o then Ok true
      else let! c := _cmp self o in Ok (negb (Z.eqb c 0))
  end.

(** The four ordering methods share their guard; [test] is applied to
    the result of [_cmp]. *)
Definition ordering_method (test : Z -> bool) (self : Rdata) (other : pyobj)
    : res cmp_ret :=
  match other with
  | OOther _ => Ok NotImplemented
  | ORdata o =>
      if differ self o then Ok NotImplemented
      else let! c := _cmp self o in Ok (PyBool (test c))
  end.

Definition __lt__ := ordering_method (fun c => c <? 0).
Definition __le__ := ordering_method (fun c => c <=? 0).
Definition __ge__ := ordering_method (fun c => 0 <=? c).
Definition __gt__ := ordering_method (fun c => 0 <? c).

Definition __hash__ (self : Rdata) : res Z :=
  let! d := to_digestable self in Ok (py_hash_bytes d).

(** The operators [a == b], [a < b] and [a > b] between two rdatas:
    [==] takes the [bool] of [__eq__]; [<] calls [a.__lt__(b)] and, on
    [NotImplemented], the reflected [b.__gt__(a)], raising [TypeError] if
    that is [NotImplemented] too (and symmetrically for [>]). *)
Definition op_eq (a b : Rdata) : res bool := __eq__ a (ORdata b).

Definition op_reflected (m m_refl : Rdata -> pyobj -> res cmp_ret) (a b : Rdata)
    : res bool :=
  let! r := m a (ORdata b) in
  match r with
  | PyBool x => Ok x
  | NotImplemented =>
      let! r' := m_refl b (ORdata a) in
      match r' with
      | PyBool x => Ok x
      | NotImplemented => Err TypeError
      end
  end.

Definition op_lt := op_reflected __lt__ __gt__.
Definition op_gt := op_reflected __gt__ __lt__.

End RdataMethods.

(* ------------------------------------------------------------------ *)
(** ** The token stream *)

Inductive ttype :=
  | EOF | EOL | WHITESPACE | IDENTIFIER | QUOTED_STRING | COMMENT | DELIMITER.

Record token := mkToken { ttype_of : ttype; value : string }.

Definition is_identifier (t : token) : bool :=
  match ttype_of t with IDENTIFIER => true | _ => false end.

Definition is_eol_or_eof (t : token) : bool :=
  match ttype_of t with EOL | EOF => true | _ => false end.

(** Modelled from the spec: [dns.tokenizer.Tokenizer] (an external
    collaborator, not in this source). The stream is the list of tokens
    still to be read, after whitespace and comments are skipped, plus the
    one-token unget buffer; past the end, [get] keeps returning EOF. *)
Record Tokenizer := mkTokenizer {
  ungotten_token : option token;
  pending : list token
}.

Definition eof_token : token := mkToken EOF "".

Definition tok_get (t : Tokenizer) : token * Tokenizer :=
  match ungotten_token t with
  | Some tk => (tk, mkTokenizer None (pending t))
  | None =>
      match pending t with
      | [] => (eof_token, t)
      | tk :: rest => (tk, mkTokenizer None rest)
      end
  end.

Definition tok_unget (tk : token) (t : Tokenizer) : res Tokenizer :=
  match ungotten_token t with
  | Some _ => Err UngetBufferFull
  | None => Ok (mkTokenizer (Some tk) (pending t))
  end.

Definition is_digit (c : ascii) : bool :=
  let n := nat_of_ascii c in Nat.leb 48 n && Nat.leb n 57.

Fixpoint all_digits (s : string) : bool :=
  match s with
  | EmptyString => true
  | String c s' => is_digit c && all_digits s'
  end.

Fixpoint decimal_value_acc (acc : Z) (s : string) : Z :=
  match s with
  | EmptyString => acc
  | String c s' => decimal_value_acc (10 * acc + Z.of_nat (nat_of_ascii c - 48)) s'
  end.

(** Modelled from the spec ("the next token must be an integer length";
    an unparsable integer is a syntax error): [Tokenizer.get_int]. *)
Definition tok_get_int (t : Tokenizer) : res (Z * Tokenizer) :=
  let (tk, t') := tok_get t in
  if negb (is_identifier tk) then Err (SyntaxError "expecting an identifier")
  else if negb (all_digits (value tk)) || String.eqb (value tk) ""
  then Err (SyntaxError "expecting an integer")
  else Ok (decimal_value_acc 0 (value tk), t').

(* ------------------------------------------------------------------ *)
(** ** binascii.unhexlify *)

Definition hex_digit (c : ascii) : option N :=
  let n := N.of_nat (nat_of_ascii c) in
  if (48 <=? n)%N && (n <=? 57)%N then Some (n - 48)%N
  else if (97 <=? n)%N && (n <=? 102)%N then Some (n - 87)%N
  else if (65 <=? n)%N && (n <=? 70)%N then Some (n - 55)%N
  else None.

Definition byte_of_N (n : N) : byte :=
  match Byte.of_N n with Some b => b | None => x00 end.

(** [binascii.unhexlify]: an odd length or a non-hex digit raises
    [binascii.Error]. *)
Fixpoint unhexlify (s : string) : res bytes :=
  match s with
  | EmptyString => Ok []
  | String _ EmptyString => Err BinasciiError
  | String hi (String lo s') =>
      match hex_digit hi, hex_digit lo with
      | Some h, Some l =>
          let! rest := unhexlify s' in Ok (byte_of_N (16 * h + l)%N :: rest)
      | _, _ => Err BinasciiError
      end
  end.

(* ------------------------------------------------------------------ *)
(** ** Module state and its monad *)

(** The process state the functions of this module read and write: the
    registry [_rdata_classes], the tables of [dns.rdatatype] that
    [register_type] updates, and the tokenizer being read. *)
Record St := mkSt {
  _rdata_classes : gmap (Z * Z) RdataClass;
  _by_text : gmap string Z;
  _by_value : gmap Z string;
  _singletons : gset Z;
  st_tok : Tokenizer
}.

(** A call: the state after it, with its value or the exception raised
    (writes made before the exception stay). *)
Definition M (A : Type) : Type := St -> res A * St.

Definition ret {A} (a : A) : M A := fun st => (Ok a, st).
Definition throw {A} (e : exn) : M A := fun st => (Err e, st).
Definition bind {A B} (m : M A) (k : A -> M B) : M B :=
  fun st => match m st with
            | (Ok a, st') => k a st'
            | (Err e, st') => (Err e, st')
            end.
Definition lift {A} (r : res A) : M A := fun st => (r, st).

Notation "'let*' x := m 'in' k" := (bind m (fun x => k))
  (at level 200, x name, m at level 100, k at level 200).
Notation "m ;; k" := (bind m (fun _ => k)) (at level 100, right associativity).

Definition cache_get (key : Z * Z) : M (option RdataClass) :=
  fun st => (Ok (_rdata_classes st !! key), st).

Definition cache_set (key : Z * Z) (cls : RdataClass) : M unit :=
  fun st => (Ok tt, mkSt (<[key := cls]> (_rdata_classes st)) (_by_text st)
                        (_by_value st) (_singletons st) (st_tok st)).

Definition get_tok : M token :=
  fun st => let (tk, t') := tok_get (st_tok st) in
            (Ok tk, mkSt (_rdata_classes st) (_by_text st) (_by_value st)
                         (_singletons st) t').

Definition with_tok {A} (f : Tokenizer -> res (A * Tokenizer)) : M A :=
  fun st => match f (st_tok st) with
            | Ok (a, t') => (Ok a, mkSt (_rdata_classes st) (_by_text st)
                                       (_by_value st) (_singletons st) t')
            | Err e => (Err e, st)
            end.

Definition unget_tok (tk : token) : M unit :=
  with_tok (fun t => let! t' := tok_unget tk t in Ok (tt, t')).

Definition get_int : M Z := with_tok tok_get_int.

(* ------------------------------------------------------------------ *)
(** ** GenericRdata *)

(** The [while 1] loop of [GenericRdata.from_text] over the pending list:
    the values of the tokens up to the first EOL or EOF, which is consumed
    (at the end of the list, [get] returns EOF without consuming). *)
Fixpoint read_chunks_list (l : list token) : list string * list token :=
  match l with
  | [] => ([], [])
  | tk :: rest =>
      if is_eol_or_eof tk then ([], rest)
      else let (cs, rest') := read_chunks_list rest in (value tk :: cs, rest')
  end.

(** The same loop starting from a tokenizer, whose unget buffer is read
    first. *)
Definition read_chunks (t : Tokenizer) : res (list string * Tokenizer) :=
  match ungotten_token t with
  | Some tk =>
      if is_eol_or_eof tk then Ok ([], mkTokenizer None (pending t))
      else let (cs, rest) := read_chunks_list (pending t) in
           Ok (value tk :: cs, mkTokenizer None rest)
  | None =>
      let (cs, rest) := read_chunks_list (pending t) in
      Ok (cs, mkTokenizer None rest)
  end.

(** [b''.join(chunks)]; the token values are taken as their byte strings
    ([str.encode] is the identity on ASCII text, and a non-ASCII character
    encodes to bytes that are not hex digits either). *)
Definition join_chunks (cs : list string) : string := String.concat "" cs.

Definition mk_generic (rdclass rdtype : Z) (data : bytes) : Rdata :=
  mkRdata GenericRdata rdclass rdtype [("data", PyBytes data)].

(** [GenericRdata.from_text] *)
Definition generic_from_text (rdclass rdtype : Z) : M Rdata :=
  let* token := get_tok in
  if negb (is_identifier token) || negb (String.eqb (value token) "\#")
  then throw (SyntaxError "generic rdata does not start with \#")
  else
    let* length := get_int in
    let* chunks := with_tok read_chunks in
    let hex := join_chunks chunks in
    let* data := lift (unhexlify hex) in
    if negb (Z.eqb (Z.of_nat (List.length data)) length)
    then throw (SyntaxError "generic rdata hex data has wrong length")
    else ret (mk_generic rdclass rdtype data).

(** Modelled from the spec (the byte-buffer wrapper [dns.wiredata] is not
    in this source): slicing the wrapped wire past its end raises
    [FormError] instead of clamping. *)
Definition wire_slice (wire : bytes) (start stop : nat) : res bytes :=
  if Nat.leb start (List.length wire) && Nat.leb stop (List.length wire)
  then Ok (firstn (stop - start) (skipn start wire))
  else Err FormError.

(** [GenericRdata.from_wire] *)
Definition generic_from_wire (rdclass rdtype : Z) (wire : bytes)
    (current rdlen : nat) : M Rdata :=
  let* data := lift (wire_slice wire current (current + rdlen)) in
  ret (mk_generic rdclass rdtype data).

(** [rdata.data] of a generic rdata. *)
Definition generic_data (r : Rdata) : M bytes :=
  match rd_getattr r "data" with
  | Some (PyBytes d) => ret d
  | Some _ => throw TypeError
  | None => throw AttributeError
  end.

(* ------------------------------------------------------------------ *)
(** ** The type registry and the dispatch entry points *)

Definition rdataclass_IN : Z := 1.
Definition rdataclass_ANY : Z := 255.
Definition rdatatype_ANY : Z := 255.
Definition _module_prefix : string := "dns.rdtypes".

(** [s.replace('-', '_')] *)
Fixpoint replace_dash (s : string) : string :=
  match s with
  | EmptyString => EmptyString
  | String c s' =>
      String (if Ascii.eqb c "-"%char then "_"%char else c) (replace_dash s')
  end.

(** [prefix + '.' + a + '.' + b], i.e. ['.'.join([prefix, a, b])] *)
Definition module_path (a b : string) : string :=
  String.concat "." [_module_prefix; a; b].

(** Modelled from the spec: [dns.rdatatype.register_type], which records
    the type's display name and whether it is a singleton type. *)
Definition rdatatype_register_type (rdtype : Z) (rdtype_text : string)
    (is_singleton : bool) : M unit :=
  fun st => (Ok tt, mkSt (_rdata_classes st)
                         (<[rdtype_text := rdtype]> (_by_text st))
                         (<[rdtype := rdtype_text]> (_by_value st))
                         (if is_singleton then {[rdtype]} ∪ _singletons st
                          else _singletons st)
                         (st_tok st)).

Section Registry.

(** A loaded Python module, [importlib.import_module] ([None] is the
    [ImportError]) and [getattr] on a module ([None] is the
    [AttributeError]). *)
Variable PyModule : Type.
Variable import_module : string -> option PyModule.
Variable module_getattr : PyModule -> string -> option RdataClass.

(** [dns.rdataclass.to_text] and [dns.rdatatype.to_text]. *)
Variable rdclass_to_text : Z -> string.
Variable rdtype_to_text : Z -> string.

(** The [from_text] and [from_wire] class methods of the per-type classes. *)
Variable variant_from_text : string -> Z -> Z -> M Rdata.
Variable variant_from_wire : string -> Z -> Z -> bytes -> nat -> nat -> M Rdata.

(** [mod = import_module(path); cls = getattr(mod, name)]; [None] when
    the import raised [ImportError], the [AttributeError] of [getattr]
    is not caught. *)
Definition import_class (path name : string) : option (res RdataClass) :=
  match import_module path with
  | None => None
  | Some m =>
      Some (match module_getattr m name with
            | Some c => Ok c
            | None => Err AttributeError
            end)
  end.

(** The [try]/[except ImportError] block of [get_rdata_class]. *)
Definition load_by_convention (rdclass rdtype : Z) : M (option RdataClass) :=
  let rdclass_text := rdclass_to_text rdclass in
  let rdtype_text := replace_dash (rdtype_to_text rdtype) in
  match import_class (module_path rdclass_text rdtype_text) rdtype_text with
  | Some r =>
      let* cls := lift r in
      cache_set (rdclass, rdtype) cls ;;
      ret (Some cls)
  | None =>
      match import_class (module_path "ANY" rdtype_text) rdtype_text with
      | Some r =>
          let* cls := lift r in
          cache_set (rdataclass_ANY, rdtype) cls ;;
          cache_set (rdclass, rdtype) cls ;;
          ret (Some cls)
      | None => ret None
      end
  end.

(** [get_rdata_class] *)
Definition get_rdata_class (rdclass rdtype : Z) : M RdataClass :=
  let* cls := cache_get (rdclass, rdtype) in
  let* cls :=
    match cls with
    | Some _ => ret cls
    | None =>
        let* cls := cache_get (rdatatype_ANY, rdtype) in
        match cls with
        | Some _ => ret cls
        | None => load_by_convention rdclass rdtype
        end
    end in
  match cls with
  | Some c => ret c
  | None => cache_set (rdclass, rdtype) GenericRdata ;; ret GenericRdata
  end.

Definition cls_from_text (cls : RdataClass) (rdclass rdtype : Z) : M Rdata :=
  match cls with
  | GenericRdata => generic_from_text rdclass rdtype
  | Variant n => variant_from_text n rdclass rdtype
  end.

Definition cls_from_wire (cls : RdataClass) (rdclass rdtype : Z) (wire : bytes)
    (current rdlen : nat) : M Rdata :=
  match cls with
  | GenericRdata => generic_from_wire rdclass rdtype wire current rdlen
  | Variant n => variant_from_wire n rdclass rdtype wire current rdlen
  end.

(** Module-level [from_wire] ([dns.wiredata.maybe_wrap] is [wire_slice]'s
    strict slicing). *)
Definition from_wire (rdclass rdtype : Z) (wire : bytes) (current rdlen : nat)
    : M Rdata :=
  let* cls := get_rdata_class rdclass rdtype in
  cls_from_wire cls rdclass rdtype wire current rdlen.

(** Module-level [from_text], reading from the tokenizer of the state. *)
Definition from_text (rdclass rdtype : Z) : M Rdata :=
  let* cls := get_rdata_class rdclass rdtype in
  if decide (cls <> GenericRdata) then
    let* token := get_tok in
    unget_tok token ;;
    if is_identifier token && String.eqb (value token) "\#" then
      let* rdata := generic_from_text rdclass rdtype in
      let* data := generic_data rdata in
      from_wire rdclass rdtype data 0 (List.length data)
    else cls_from_text cls rdclass rdtype
  else cls_from_text cls rdclass rdtype.

(** [register_type(implementation, rdtype, rdtype_text, is_singleton, rdclass)] *)
Definition register_type (implementation : PyModule) (rdtype : Z)
    (rdtype_text : string) (is_singleton : bool) (rdclass : Z) : M unit :=
  let* existing_cls := get_rdata_class rdclass rdtype in
  if decide (existing_cls <> GenericRdata)
  then throw (RdatatypeExists rdclass rdtype)
  else
    let* cls := lift (match module_getattr implementation (replace_dash rdtype_text) with
                      | Some c => Ok c
                      | None => Err AttributeError
                      end) in
    cache_set (rdclass, rdtype) cls ;;
    rdatatype_register_type rdtype rdtype_text is_singleton.

End Registry.

(* ------------------------------------------------------------------ *)
(** ** Rdata.replace and attribute assignment *)

(** [Rdata.__setattr__] and [Rdata.__delattr__]: no subclass overrides
    them, so they are what [v.name = x] and [del v.name] run. *)
Definition __setattr__ (self : Rdata) (name : string) (value : pyval) : res unit :=
  Err TypeError.

Definition __delattr__ (self : Rdata) (name : string) : res unit :=
  Err TypeError.

(** The objects of a program run, by identity. *)
Abbreviation Heap := (gmap N Rdata).

Section Replace.

(** The parameter names of a per-type class's [__init__] (what
    [inspect.signature(self.__init__).parameters] lists) and the class
    call [cls( *args)]. *)
Variable variant_init_params : string -> list string.
Variable variant_init : string -> list pyval -> res Rdata.

Definition init_parameters (cls : RdataClass) : list string :=
  match cls with
  | GenericRdata => ["rdclass"; "rdtype"; "data"]
  | Variant n => variant_init_params n
  end.

(** [self.__class__( *args)]; [GenericRdata.__init__] stores its three
    arguments (a wrong number of them is a [TypeError]; the model keeps
    [rdclass] and [rdtype] ints, as [replace] always passes them). *)
Definition construct (cls : RdataClass) (args : list pyval) : res Rdata :=
  match cls with
  | GenericRdata =>
      match args with
      | [PyInt c; PyInt t; d] => Ok (mkRdata GenericRdata c t [("data", d)])
      | _ => Err TypeError
      end
  | Variant n => variant_init n args
  end.

Definition getattr_res (r : Rdata) (key : string) : res pyval :=
  match rd_getattr r key with
  | Some v => Ok v
  | None => Err AttributeError
  end.

(** The validation loop: [for key in kwargs: ...]. *)
Fixpoint check_kwargs (parameters : list string) (keys : list string) : res unit :=
  match keys with
  | [] => Ok tt
  | key :: keys' =>
      if negb (existsb (String.eqb key) parameters) then Err AttributeError
      else if String.eqb key "rdclass" || String.eqb key "rdtype"
      then Err AttributeError
      else check_kwargs parameters keys'
  end.

(** [(kwargs.get(key, getattr(self, key)) for key in parameters)]: the
    default is evaluated even when [key] is in [kwargs]. *)
Fixpoint replace_args (self : Rdata) (kwargs : list (string * pyval))
    (parameters : list string) : res (list pyval) :=
  match parameters with
  | [] => Ok []
  | key :: ps =>
      let! dflt := getattr_res self key in
      let! rest := replace_args self kwargs ps in
      Ok (match assoc_get key kwargs with Some v => v | None => dflt end :: rest)
  end.

(** [Rdata.replace( **kwargs)] *)
Definition replace (self : Rdata) (kwargs : list (string * pyval)) : res Rdata :=
  let parameters := init_parameters (rd_class self) in
  let! _ := check_kwargs parameters (map fst kwargs) in
  let! args := replace_args self kwargs parameters in
  construct (rd_class self) args.

(** The operations the [Rdata] interface offers on an object of the
    heap: assigning or deleting an attribute, and [replace], whose result
    is a new object. *)
Inductive rdata_op :=
  | SetAttr (id : N) (name : string) (v : pyval)
  | DelAttr (id : N) (name : string)
  | Replace (id : N) (kwargs : list (string * pyval)).

Definition exec_op (h : Heap) (op : rdata_op) : res (option N) * Heap :=
  match op with
  | SetAttr id name v =>
      match h !! id with
      | Some r => (let! _ := __setattr__ r name v in Ok None, h)
      | None => (Err AttributeError, h)
      end
  | DelAttr id name =>
      match h !! id with
      | Some r => (let! _ := __delattr__ r name in Ok None, h)
      | None => (Err AttributeError, h)
      end
  | Replace id kwargs =>
      match h !! id with
      | Some r =>
          match replace r kwargs with
          | Ok r' => let id' := fresh (dom h) in (Ok (Some id'), <[id' := r']> h)
          | Err e => (Err e, h)
          end
      | None => (Err AttributeError, h)
      end
  end.

End Replace.

(* ------------------------------------------------------------------ *)
(** ** Readings of the spec, to compare with the code *)

(** The spec's reading of [truncate_trailing_zero_bitmap]: the input with
    its trailing zero bytes removed. *)
Fixpoint drop_zero_bytes (l : bytes) : bytes :=
  match l with
  | b :: l' => if N.eqb (Byte.to_N b) 0 then drop_zero_bytes l' else l
  | [] => []
  end.

Definition strip_trailing_zeros (what : bytes) : bytes :=
  rev (drop_zero_bytes (rev what)).

(** Exactly one of three booleans is true. *)
Definition exactly_one (b1 b2 b3 : bool) : bool :=
  (b1 && negb b2 && negb b3) || (negb b1 && b2 && negb b3)
  || (negb b1 && negb b2 && b3).

(** A per-type class as [dns.rdtypes] writes them, for the concrete
    runs below: [__init__(self, rdclass, rdtype)] storing its arguments. *)
Definition ex_init_params (n : string) : list string := ["rdclass"; "rdtype"].

Definition ex_init (n : string) (args : list pyval) : res Rdata :=
  match args with
  | [PyInt c; PyInt t] => Ok (mkRdata (Variant n) c t [])
  | _ => Err TypeError
  end.

(** The state with another registry, resp. another tokenizer. *)
Definition with_classes (st : St) (m : gmap (Z * Z) RdataClass) : St :=
  mkSt m (_by_text st) (_by_value st) (_singletons st) (st_tok st).

Definition set_tok (st : St) (t : Tokenizer) : St :=
  mkSt (_rdata_classes st) (_by_text st) (_by_value st) (_singletons st) t.

(** An identifier token. *)
Definition ident (s : string) : token := mkToken IDENTIFIER s.

(** A module loader under which every class and type has a module
    defining the class [TYPE9999], and per-type parsers for it: [from_text]
    rejects its input, [from_wire] keeps the bytes it is given. *)
Definition ex_import (_ : string) : option unit := Some tt.
Definition ex_getattr (_ : unit) (_ : string) : option RdataClass :=
  Some (Variant "TYPE9999").
Definition ex_variant_from_text (_ : string) (_ _ : Z) : M Rdata :=
  throw (SyntaxError "unexpected token").
Definition ex_variant_from_wire (n : string) (c t : Z) (wire : bytes)
    (current rdlen : nat) : M Rdata :=
  ret (mkRdata (Variant n) c t [("data", PyBytes (firstn rdlen (skipn current wire)))]).

(** A state with an empty registry reading the given tokens. *)
Definition ex_state (toks : list token) : St :=
  mkSt ∅ ∅ ∅ ∅ (mkTokenizer None toks).

(* ------------------------------------------------------------------ *)
(** ** _hexify and GenericRdata.to_text *)

(** A lower-case hex digit of [binascii.hexlify]. *)
Definition hex_char (n : N) : ascii :=
  ascii_of_N (if (n <? 10)%N then 48 + n else 87 + n)%N.

(** [binascii.hexlify(data)]: two lower-case hex digits per byte, the
    high nibble first. *)
Fixpoint hexlify (data : bytes) : string :=
  match data with
  | [] => EmptyString
  | b :: data' =>
      String (hex_char (Byte.to_N b / 16)) (String (hex_char (Byte.to_N b mod 16))
        (hexlify data'))
  end.

(** The elements of [range(i, stop, step)] for a positive [step], at most
    [fuel] of them. *)
Fixpoint range_up (fuel i step stop : nat) : list nat :=
  match fuel with
  | O => []
  | S f => if Nat.ltb i stop then i :: range_up f (i + step) step stop else []
  end.

(** [range(0, stop, step)] for [stop >= 0]: [None] is the [ValueError]
    raised for a zero step; a negative step gives no element, since
    [0 > stop] fails at once. A positive step gives at most [stop + 1]
    elements. *)
Definition py_range0 (stop : nat) (step : Z) : option (list nat) :=
  if Z.eqb step 0 then None
  else if Z.ltb 0 step then Some (range_up (S stop) 0 (Z.to_nat step) stop)
  else Some [].

(** [[line[i:i + chunksize] for i in idx]] for a positive [chunksize]
    (Python's slice clamps at the end of the string, as [substring]
    does). *)
Definition hex_chunks (line : string) (chunksize : nat) (idx : list nat) : list string :=
  map (fun i => substring i chunksize line) idx.

Definition _hex_chunksize : Z := 32.

(** [_hexify(data, chunksize)]: [b' '.join(...)] of the chunks, then
    [.decode()] (the identity on these ASCII characters); [None] is the
    [ValueError] of [range]. For a negative [chunksize] there is no index,
    so no slice is taken. *)
Definition _hexify (data : bytes) (chunksize : Z) : option string :=
  let line := hexlify data in
  match py_range0 (String.length line) chunksize with
  | None => None
  | Some idx => Some (String.concat " " (hex_chunks line (Z.to_nat chunksize) idx))
  end.

(** ['%d' % n] for a natural number [n]: its decimal digits, at most
    [fuel] of them. *)
Definition digit_char (d : N) : ascii := ascii_of_N (48 + d).

Fixpoint decimal_go (fuel : nat) (n : N) : string :=
  match fuel with
  | O => EmptyString
  | S f =>
      if (n <? 10)%N then String (digit_char n) EmptyString
      else (decimal_go f (n / 10) ++ String (digit_char (n mod 10)) EmptyString)%string
  end.

Definition py_decimal (n : nat) : string := decimal_go (S n) (N.of_nat n).

(** [GenericRdata.to_text()]: [r'\# %d ' % len(self.data) + _hexify(self.data)],
    with the default chunk size; [len] and [hexlify] raise [TypeError]
    on a value that is not bytes. *)
Definition generic_to_text (self : Rdata) : res string :=
  match rd_getattr self "data" with
  | Some (PyBytes d) =>
      match _hexify d _hex_chunksize with
      | Some h => Ok ("\# " ++ py_decimal (List.length d) ++ " " ++ h)%string
      | None => Err TypeError (* not reached: the chunk size is positive *)
      end
  | Some _ => Err TypeError
  | None => Err AttributeError
  end.

(** The words of a text separated by spaces, as [str.split()] gives them
    for a text whose only white space is the space character. *)
Fixpoint split_words (s : string) (cur : string) : list string :=
  match s with
  | EmptyString => if String.eqb cur "" then [] else [cur]
  | String c s' =>
      if Ascii.eqb c " "%char then
        (if String.eqb cur "" then [] else [cur]) ++ split_words s' ""
      else split_words s' (cur ++ String c "")%string
  end.

(** Every character of a string satisfies [p]. *)
Fixpoint all_chars (p : ascii -> bool) (s : string) : bool :=
  match s with
  | EmptyString => true
  | String c s' => p c && all_chars p s'
  end.

Definition is_hex_char (c : ascii) : bool :=
  match hex_digit c with Some _ => true | None => false end.

(** A word holds no space. *)
Definition no_space (w : string) : bool := all_chars (fun c => negb (Ascii.eqb c " "%char)) w.

(* ------------------------------------------------------------------ *)
(** ** _escapify *)

(** [__escaped]: the byte values of the double quote and the backslash. *)
Definition __escaped : list N := [34; 92]%N.

(** ['%03d' % c] for [0 <= c < 1000]. *)
Definition pad3 (c : N) : string :=
  String (digit_char (c / 100)) (String (digit_char (c / 10 mod 10))
    (String (digit_char (c mod 10)) EmptyString)).

(** The text one byte [c] of the loop of [_escapify] appends. *)
Definition escape_byte (c : N) : string :=
  if existsb (N.eqb c) __escaped then String "\"%char (String (ascii_of_N c) EmptyString)
  else if (32 <=? c)%N && (c <? 127)%N then String (ascii_of_N c) EmptyString
  else String "\"%char (pad3 c).

(** [_escapify(qstring)] for a [bytes] or [bytearray] argument (a [str] is
    first encoded to its UTF-8 bytes): [text += ...] for each byte in
    order. *)
Fixpoint _escapify (qstring : bytes) : string :=
  match qstring with
  | [] => EmptyString
  | c :: q => (escape_byte (Byte.to_N c) ++ _escapify q)%string
  end.

(** A reader of [_escapify]'s output, inverse to it: [\] and a digit start
    a three-digit code, [\] and another character stand for that
    character, any other character for itself. *)
Fixpoint unescape (s : string) : list N :=
  match s with
  | EmptyString => []
  | String c s1 =>
      if Ascii.eqb c "\"%char then
        match s1 with
        | EmptyString => []
        | String d s2 =>
            if is_digit d then
              match s2 with
              | String e (String f s3) =>
                  (100 * (N_of_ascii d - 48) + 10 * (N_of_ascii e - 48)
                   + (N_of_ascii f - 48))%N :: unescape s3
              | _ => []
              end
            else N_of_ascii d :: unescape s2
        end
      else N_of_ascii c :: unescape s1
  end.

(* ------------------------------------------------------------------ *)
(** ** _constify *)

(** The Python values [_constify] distinguishes: [bytearray], [tuple] and
    [list], next to the immutable scalars; [CObj h] is any other object,
    [h] telling whether [hash] succeeds on it (a [dict] or a [set] has
    [h = false]). *)
#[warnings="-register-all"]
Inductive cval :=
  | CInt (z : Z)
  | CStr (s : string)
  | CBytes (b : bytes)
  | CNone
  | CByteArray (b : bytes)
  | CTuple (l : list cval)
  | CList (l : list cval)
  | CObj (h : bool).

(** Whether [hash(o)] returns: a tuple hashes its elements; [bytearray]
    and [list] are unhashable. *)
Fixpoint hashable (o : cval) : bool :=
  match o with
  | CInt _ | CStr _ | CBytes _ | CNone => true
  | CByteArray _ | CList _ => false
  | CTuple l => forallb hashable l
  | CObj h => h
  end.

(** [_constify(o)]: the [try: hash(o)] of the tuple case succeeds exactly
    when [hashable o]. *)
Fixpoint _constify (o : cval) : cval :=
  match o with
  | CByteArray b => CBytes b
  | CTuple l => if forallb hashable l then o else CTuple (map _constify l)
  | CList l => CTuple (map _constify l)
  | _ => o
  end.


(* ------------------------------------------------------------------ *)
(** ** covers, extended_rdatatype and to_generic *)

(** [dns.rdatatype.NONE]. *)
Definition rdatatype_NONE : Z := 0.

(** [Rdata.covers()], overridden by the per-type classes ([SIG] and
    [RRSIG] return the covered type); [GenericRdata] keeps the base
    method. *)
Definition covers (variant_covers : string -> Rdata -> Z) (self : Rdata) : Z :=
  match rd_class self with
  | GenericRdata => rdatatype_NONE
  | Variant n => variant_covers n self
  end.

(** [self.covers() << 16 | self.rdtype] *)
Definition extended_rdatatype (variant_covers : string -> Rdata -> Z) (self : Rdata) : Z :=
  Z.lor (Z.shiftl (covers variant_covers self) 16) (rdtype self).

(** [Rdata.to_generic()]: [self.to_wire(f, origin=None)] into a buffer,
    wrapped as a [GenericRdata] of the same class and type;
    [variant_to_wire_none] is the per-type [to_wire] with no origin. *)
Definition to_generic (variant_to_wire_none : string -> Rdata -> res bytes)
    (self : Rdata) : res Rdata :=
  let! d := to_wire variant_to_wire_none self in
  Ok (mk_generic (rdclass self) (rdtype self) d).

(* ================================================================== *)
(** * Properties *)

(* ------------------------------------------------------------------ *)
(** ** Bytes *)

Lemma byte_to_N_inj (x y : byte) : Byte.to_N x = Byte.to_N y -> x = y.
Proof.
  intros H. pose proof (Byte.of_to_N x) as Hx. pose proof (Byte.of_to_N y) as Hy.
  rewrite H in Hx. congruence.
Qed.

Lemma bytes_eqb_eq (a b : bytes) : bytes_eqb a b = true <-> a = b.
Proof.
  revert b; induction a as [|x a IH]; intros [|y b]; simpl; try (split; congruence).
  rewrite andb_true_iff, IH. split.
  - intros [Hxy ->]. apply Byte.byte_dec_bl in Hxy. now subst.
  - intros H. injection H as -> ->. split; [apply Byte.byte_dec_lb|]; reflexivity.
Qed.

Lemma bytes_gt_irrefl (a : bytes) : bytes_gt a a = false.
Proof.
  induction a as [|x a IH]; simpl; [reflexivity|].
  now rewrite N.ltb_irrefl.
Qed.

Lemma bytes_gt_asym (a b : bytes) : bytes_gt a b = true -> bytes_gt b a = false.
Proof.
  revert b; induction a as [|x a IH]; intros [|y b]; simpl; try congruence.
  destruct (N.ltb_spec (Byte.to_N y) (Byte.to_N x));
  destruct (N.ltb_spec (Byte.to_N x) (Byte.to_N y)); try lia; auto.
Qed.

Lemma bytes_gt_total (a b : bytes) :
  a <> b -> bytes_gt a b = false -> bytes_gt b a = true.
Proof.
  revert b; induction a as [|x a IH]; intros [|y b]; simpl; try congruence.
  intros Hne.
  destruct (N.ltb_spec (Byte.to_N y) (Byte.to_N x));
  destruct (N.ltb_spec (Byte.to_N x) (Byte.to_N y)); try lia; try congruence.
  assert (x = y) by (apply byte_to_N_inj; lia). subst.
  apply IH. congruence.
Qed.

Lemma bytes_gt_trans (a b c : bytes) :
  bytes_gt a b = true -> bytes_gt b c = true -> bytes_gt a c = true.
Proof.
  revert b c; induction a as [|x a IH]; intros [|y b] [|z c]; simpl; try congruence.
  destruct (N.ltb_spec (Byte.to_N y) (Byte.to_N x));
  destruct (N.ltb_spec (Byte.to_N x) (Byte.to_N y));
  destruct (N.ltb_spec (Byte.to_N z) (Byte.to_N y));
  destruct (N.ltb_spec (Byte.to_N y) (Byte.to_N z));
  destruct (N.ltb_spec (Byte.to_N z) (Byte.to_N x));
  destruct (N.ltb_spec (Byte.to_N x) (Byte.to_N z)); try lia; try congruence; eauto.
Qed.

(* ------------------------------------------------------------------ *)
(** ** _truncate_bitmap *)

Lemma strip_trailing_zeros_snoc (l : bytes) (b : byte) :
  strip_trailing_zeros (l ++ [b]) =
  if N.eqb (Byte.to_N b) 0 then strip_trailing_zeros l else l ++ [b].
Proof.
  unfold strip_trailing_zeros. rewrite rev_app_distr. simpl.
  destruct (N.eqb (Byte.to_N b) 0); [reflexivity|].
  simpl. now rewrite rev_involutive.
Qed.

Lemma truncate_bitmap_loop_strip (what : bytes) (k : nat) :
  (k <= length what)%nat ->
  truncate_bitmap_loop what k =
  match strip_trailing_zeros (firstn k what) with
  | [] => None
  | s => Some s
  end.
Proof.
  induction k as [|i IH]; intros Hk; [reflexivity|].
  simpl truncate_bitmap_loop.
  destruct (lookup_lt_is_Some_2 what i) as [b Hb]; [lia|].
  rewrite (take_S_r what i b Hb), strip_trailing_zeros_snoc.
  unfold byte_at. rewrite (nth_lookup_Some _ _ _ _ Hb).
  destruct (N.eqb (Byte.to_N b) 0); simpl.
  - apply IH. lia.
  - replace (i + 1)%nat with (S i) by lia. rewrite (take_S_r what i b Hb).
    destruct (firstn i what); reflexivity.
Qed.

Lemma truncate_bitmap_strip (what : bytes) :
  _truncate_bitmap what =
  match strip_trailing_zeros what with
  | [] => firstn 1 what
  | s => s
  end.
Proof.
  unfold _truncate_bitmap.
  rewrite truncate_bitmap_loop_strip by lia. rewrite firstn_all.
  destruct (strip_trailing_zeros what); reflexivity.
Qed.

(** C6 (counterexample): the empty input is returned as it is, so the
    result does not always have length at least 1. *)
Lemma C6_truncate_bitmap_empty_counterexample :
  ~ (forall what : bytes, (1 <= length (_truncate_bitmap what))%nat).
Proof. intros H. specialize (H []). simpl in H. lia. Qed.

(** C6 (amended): [_truncate_bitmap] returns the input with its trailing
    zero bytes removed when that is not empty, and otherwise (an all-zero
    or empty input) its first byte only, [what[0:1]]; so every non-empty
    input gives a result of length at least 1, and the empty input gives
    the empty result. [b"\x01\x02\x00\x00"] gives [b"\x01\x02"] and
    [b"\x00\x00"] gives [b"\x00"]. *)
Theorem C6_truncate_bitmap_spec :
  (forall what : bytes,
     _truncate_bitmap what =
     match strip_trailing_zeros what with
     | [] => firstn 1 what
     | s => s
     end) /\
  (forall what : bytes, what <> [] -> (1 <= length (_truncate_bitmap what))%nat) /\
  _truncate_bitmap [] = [] /\
  _truncate_bitmap [x01; x02; x00; x00] = [x01; x02] /\
  _truncate_bitmap [x00; x00] = [x00].
Proof.
  split; [exact truncate_bitmap_strip|].
  split; [|split; [reflexivity| split; reflexivity]].
  intros what Hne. rewrite truncate_bitmap_strip.
  destruct what as [|b w]; [congruence|].
  destruct (strip_trailing_zeros (b :: w)); simpl; lia.
Qed.

(** C6 witness: the non-empty input [b"\x00"] keeps one byte. *)
Lemma C6_truncate_bitmap_spec_witness :
  [x00] <> [] /\ (1 <= length (_truncate_bitmap [x00]))%nat.
Proof.
  split; [discriminate|].
  apply (proj1 (proj2 C6_truncate_bitmap_spec)). discriminate.
Defined.

(* ------------------------------------------------------------------ *)
(** ** Comparison and hashing *)

Section Comparison.

Variable vt : string -> Rdata -> res bytes.

Definition cmp_value (da db : bytes) : Z :=
  if bytes_eqb da db then 0 else if bytes_gt da db then 1 else -1.

Lemma cmp_value_lt (da db : bytes) : (cmp_value da db <? 0) = bytes_gt db da.
Proof.
  unfold cmp_value. destruct (bytes_eqb da db) eqn:E.
  - apply bytes_eqb_eq in E. subst. now rewrite bytes_gt_irrefl.
  - destruct (bytes_gt da db) eqn:G.
    + now rewrite (bytes_gt_asym _ _ G).
    + symmetry. apply bytes_gt_total; [|exact G].
      intros ->. pose proof (proj2 (bytes_eqb_eq db db) eq_refl). congruence.
Qed.

Lemma cmp_value_gt (da db : bytes) : (0 <? cmp_value da db) = bytes_gt da db.
Proof.
  unfold cmp_value. destruct (bytes_eqb da db) eqn:E.
  - apply bytes_eqb_eq in E. subst. now rewrite bytes_gt_irrefl.
  - destruct (bytes_gt da db); reflexivity.
Qed.

Lemma cmp_value_eq (da db : bytes) : Z.eqb (cmp_value da db) 0 = bytes_eqb da db.
Proof.
  unfold cmp_value. destruct (bytes_eqb da db); [reflexivity|].
  destruct (bytes_gt da db); reflexivity.
Qed.

Lemma _cmp_ok (a b : Rdata) (da db : bytes) :
  to_digestable vt a = Ok da -> to_digestable vt b = Ok db ->
  _cmp vt a b = Ok (cmp_value da db).
Proof. intros Ha Hb. unfold _cmp. now rewrite Ha, Hb. Qed.

Lemma differ_sym (a b : Rdata) : differ a b = differ b a.
Proof. unfold differ. now rewrite (Z.eqb_sym (rdclass a)), (Z.eqb_sym (rdtype a)). Qed.

Lemma differ_false (a b : Rdata) :
  rdclass a = rdclass b -> rdtype a = rdtype b -> differ a b = false.
Proof. intros Hc Ht. unfold differ. now rewrite Hc, Ht, !Z.eqb_refl. Qed.

Lemma ops_same (a b : Rdata) (da db : bytes) :
  rdclass a = rdclass b -> rdtype a = rdtype b ->
  to_digestable vt a = Ok da -> to_digestable vt b = Ok db ->
  op_lt vt a b = Ok (bytes_gt db da) /\
  op_eq vt a b = Ok (bytes_eqb da db) /\
  op_gt vt a b = Ok (bytes_gt da db).
Proof.
  intros Hc Ht Ha Hb.
  pose proof (differ_false a b Hc Ht) as Hd.
  unfold op_lt, op_gt, op_eq, op_reflected, __lt__, __gt__, __eq__, ordering_method.
  rewrite Hd, (_cmp_ok a b da db Ha Hb). simpl.
  now rewrite cmp_value_lt, cmp_value_gt, cmp_value_eq.
Qed.

Lemma ops_differ (a b : Rdata) :
  differ a b = true ->
  op_eq vt a b = Ok false /\
  __lt__ vt a (ORdata b) = Ok NotImplemented /\
  __le__ vt a (ORdata b) = Ok NotImplemented /\
  __ge__ vt a (ORdata b) = Ok NotImplemented /\
  __gt__ vt a (ORdata b) = Ok NotImplemented /\
  op_lt vt a b = Err TypeError /\
  op_gt vt a b = Err TypeError.
Proof.
  intros Hd. pose proof Hd as Hd'. rewrite differ_sym in Hd'.
  unfold op_lt, op_gt, op_eq, op_reflected, __lt__, __le__, __ge__, __gt__,
    __eq__, ordering_method.
  rewrite Hd. simpl. rewrite Hd'. repeat split.
Qed.

End Comparison.

(** C1: for two rdatas of the same class and type whose canonical wire
    form (to_digestable relative to the root) is computed, [a < b],
    [a == b] and [a > b] are the comparisons of those byte strings, exactly
    one of them holds, and [<] is irreflexive, asymmetric and transitive;
    for differing class or type, [a == b] is [False], the four ordering
    methods return [NotImplemented] and the operators [<] and [>] raise
    [TypeError]. *)
Theorem C1_rdata_canonical_order (vt : string -> Rdata -> res bytes) :
  (forall (a b : Rdata) (da db : bytes),
     rdclass a = rdclass b -> rdtype a = rdtype b ->
     to_digestable vt a = Ok da -> to_digestable vt b = Ok db ->
     op_lt vt a b = Ok (bytes_gt db da) /\
     op_eq vt a b = Ok (bytes_eqb da db) /\
     op_gt vt a b = Ok (bytes_gt da db) /\
     exactly_one (bytes_gt db da) (bytes_eqb da db) (bytes_gt da db) = true) /\
  (forall (a b c : Rdata) (da db dc : bytes),
     rdclass a = rdclass b -> rdtype a = rdtype b ->
     rdclass b = rdclass c -> rdtype b = rdtype c ->
     to_digestable vt a = Ok da -> to_digestable vt b = Ok db ->
     to_digestable vt c = Ok dc ->
     op_lt vt a a = Ok false /\
     (op_lt vt a b = Ok true -> op_lt vt b a = Ok false) /\
     (op_lt vt a b = Ok true -> op_lt vt b c = Ok true -> op_lt vt a c = Ok true)) /\
  (forall a b : Rdata,
     rdclass a <> rdclass b \/ rdtype a <> rdtype b ->
     op_eq vt a b = Ok false /\
     __lt__ vt a (ORdata b) = Ok NotImplemented /\
     __le__ vt a (ORdata b) = Ok NotImplemented /\
     __ge__ vt a (ORdata b) = Ok NotImplemented /\
     __gt__ vt a (ORdata b) = Ok NotImplemented /\
     op_lt vt a b = Err TypeError /\
     op_gt vt a b = Err TypeError).
Proof.
  split; [|split].
  - intros a b da db Hc Ht Ha Hb.
    destruct (ops_same vt a b da db Hc Ht Ha Hb) as (H1 & H2 & H3).
    repeat split; try assumption.
    unfold exactly_one.
    destruct (bytes_eqb da db) eqn:E.
    + apply bytes_eqb_eq in E. subst. now rewrite bytes_gt_irrefl.
    + destruct (bytes_gt da db) eqn:G.
      * now rewrite (bytes_gt_asym _ _ G).
      * rewrite (bytes_gt_total da db); [reflexivity| |exact G].
        intros Heq. apply (proj2 (bytes_eqb_eq da db)) in Heq. congruence.
  - intros a b c da db dc Hab Htab Hbc Htbc Ha Hb Hc.
    destruct (ops_same vt a a da da eq_refl eq_refl Ha Ha) as (Haa & _).
    destruct (ops_same vt a b da db Hab Htab Ha Hb) as (Hlab & _).
    destruct (ops_same vt b a db da (eq_sym Hab) (eq_sym Htab) Hb Ha) as (Hlba & _).
    destruct (ops_same vt b c db dc Hbc Htbc Hb Hc) as (Hlbc & _).
    destruct (ops_same vt a c da dc (eq_trans Hab Hbc) (eq_trans Htab Htbc) Ha Hc)
      as (Hlac & _).
    rewrite Haa, bytes_gt_irrefl. split; [reflexivity|]. split.
    + rewrite Hlab, Hlba. intros H. injection H as H. f_equal.
      now apply bytes_gt_asym.
    + rewrite Hlab, Hlbc, Hlac. intros H1 H2. injection H1 as H1.
      injection H2 as H2. f_equal. eapply bytes_gt_trans; eauto.
  - intros a b Hne. apply ops_differ.
    unfold differ. destruct Hne as [Hne|Hne].
    + apply Z.eqb_neq in Hne. now rewrite Hne.
    + apply Z.eqb_neq in Hne. rewrite Hne. apply orb_true_r.
Qed.

(** C1 witness: two generic rdatas of class IN, type 9999 ([b"\x01"]
    below [b"\x02"]), and an IN and a CH rdata of that type. *)
Lemma C1_rdata_canonical_order_witness :
  let vt0 := fun (_ : string) (_ : Rdata) => @Err bytes TypeError in
  let a := mk_generic 1 9999 [x01] in
  let b := mk_generic 1 9999 [x02] in
  let c := mk_generic 3 9999 [x01] in
  (op_lt vt0 a b = Ok (bytes_gt [x02] [x01]) /\
   op_eq vt0 a b = Ok (bytes_eqb [x01] [x02]) /\
   op_gt vt0 a b = Ok (bytes_gt [x01] [x02]) /\
   exactly_one (bytes_gt [x02] [x01]) (bytes_eqb [x01] [x02])
     (bytes_gt [x01] [x02]) = true) /\
  (op_lt vt0 a a = Ok false /\
   (op_lt vt0 a b = Ok true -> op_lt vt0 b a = Ok false) /\
   (op_lt vt0 a b = Ok true -> op_lt vt0 b b = Ok true -> op_lt vt0 a b = Ok true)) /\
  (op_eq vt0 a c = Ok false /\
   __lt__ vt0 a (ORdata c) = Ok NotImplemented /\
   __le__ vt0 a (ORdata c) = Ok NotImplemented /\
   __ge__ vt0 a (ORdata c) = Ok NotImplemented /\
   __gt__ vt0 a (ORdata c) = Ok NotImplemented /\
   op_lt vt0 a c = Err TypeError /\
   op_gt vt0 a c = Err TypeError).
Proof.
  intros vt0 a b c.
  destruct (C1_rdata_canonical_order vt0) as (H1 & H2 & H3).
  split; [|split].
  - apply H1; reflexivity.
  - apply (H2 a b b [x01] [x02] [x02]); reflexivity.
  - apply H3. left. simpl. lia.
Defined.

(** C7: the hash of an rdata is Python's hash of its canonical wire form
    (to_digestable relative to the root), and two rdatas that compare
    equal with [==] have the same hash. *)
Theorem C7_hash_follows_equality (vt : string -> Rdata -> res bytes)
    (py_hash : bytes -> Z) :
  (forall a : Rdata,
     __hash__ vt py_hash a = let! d := to_digestable vt a in Ok (py_hash d)) /\
  (forall a b : Rdata,
     op_eq vt a b = Ok true ->
     exists d, __hash__ vt py_hash a = Ok (py_hash d) /\
               __hash__ vt py_hash b = Ok (py_hash d)).
Proof.
  split; [reflexivity|].
  intros a b Heq. unfold op_eq, __eq__ in Heq.
  destruct (differ a b); [discriminate|].
  unfold _cmp in Heq.
  destruct (to_digestable vt a) as [da|] eqn:Ha; [|discriminate].
  destruct (to_digestable vt b) as [db|] eqn:Hb; [|discriminate].
  simpl in Heq. injection Heq as Heq.
  change (Z.eqb (cmp_value da db) 0 = true) in Heq. rewrite (cmp_value_eq da db) in Heq. apply bytes_eqb_eq in Heq. subst db.
  exists da. unfold __hash__. now rewrite Ha, Hb.
Qed.

(** C7 witness: a generic rdata equals itself and hashes like its data. *)
Lemma C7_hash_follows_equality_witness :
  let vt0 := fun (_ : string) (_ : Rdata) => @Err bytes TypeError in
  let a := mk_generic 1 9999 [x01; x02] in
  op_eq vt0 a a = Ok true /\
  exists d : bytes, __hash__ vt0 (fun d : bytes => Z.of_nat (length d)) a = Ok (Z.of_nat (length d)) /\
            __hash__ vt0 (fun d : bytes => Z.of_nat (length d)) a = Ok (Z.of_nat (length d)).
Proof.
  intros vt0 a. split; [reflexivity|].
  apply (proj2 (C7_hash_follows_equality vt0 (fun d : bytes => Z.of_nat (length d)))).
  reflexivity.
Defined.

(** C10: comparing an rdata with [==] or [!=] against an object that is
    not an rdata returns [False], resp. [True], without raising, whatever
    the variants' [to_wire] does (even one that always raises): the wire
    form is not consulted. *)
Theorem C10_eq_non_rdata :
  forall (vt : string -> Rdata -> res bytes) (v : Rdata) (x : pyval),
    __eq__ vt v (OOther x) = Ok false /\ __ne__ vt v (OOther x) = Ok true.
Proof. intros vt v x. split; reflexivity. Qed.

(* ------------------------------------------------------------------ *)
(** ** replace and attribute assignment *)

Lemma existsb_eqb_in (k : string) (ps : list string) :
  existsb (String.eqb k) ps = true <-> In k ps.
Proof.
  rewrite existsb_exists. split.
  - intros (k' & Hin & Heq). apply String.eqb_eq in Heq. now subst.
  - intros Hin. exists k. split; [exact Hin| apply String.eqb_refl].
Qed.

Lemma check_kwargs_bad (ps keys : list string) (k : string) :
  In k keys -> (~ In k ps \/ k = "rdclass" \/ k = "rdtype") ->
  check_kwargs ps keys = Err AttributeError.
Proof.
  induction keys as [|key keys IH]; simpl; [tauto|].
  intros Hin Hbad.
  destruct (existsb (String.eqb key) ps) eqn:E; simpl; [|reflexivity].
  destruct (String.eqb key "rdclass" || String.eqb key "rdtype") eqn:F; [reflexivity|].
  destruct Hin as [->|Hin]; [|now apply IH].
  apply existsb_eqb_in in E. apply orb_false_iff in F as [F1 F2].
  apply String.eqb_neq in F1, F2. tauto.
Qed.

Lemma replace_args_ok (v : Rdata) (kw : list (string * pyval)) (ps : list string) :
  (forall k, In k ps -> rd_getattr v k <> None) ->
  exists args, replace_args v kw ps = Ok args /\ length args = length ps /\
    forall i k, ps !! i = Some k ->
      args !! i = match assoc_get k kw with Some x => Some x | None => rd_getattr v k end.
Proof.
  induction ps as [|k ps IH]; intros Hall.
  - exists []. repeat split. intros i k H. discriminate.
  - destruct IH as (args & Hargs & Hlen & Hget).
    { intros k' Hk'. apply Hall. now right. }
    destruct (rd_getattr v k) as [d|] eqn:Hd; [|exfalso; apply (Hall k); [now left|exact Hd]].
    exists ((match assoc_get k kw with Some v0 => v0 | None => d end) :: args).
    simpl. unfold getattr_res. rewrite Hd, Hargs. simpl. repeat split; [now rewrite Hlen|].
    intros [|i] k' Hk'; simpl in Hk'.
    + injection Hk' as <-. simpl. destruct (assoc_get k kw); congruence.
    + simpl. now apply Hget.
Qed.

Lemma exec_op_keeps (params : string -> list string)
    (init : string -> list pyval -> res Rdata) (h : Heap) (op : rdata_op)
    (id : N) (r : Rdata) :
  h !! id = Some r -> (exec_op params init h op).2 !! id = Some r.
Proof.
  intros Hid. destruct op as [i name v|i name|i kwargs]; simpl;
    destruct (h !! i) as [ri|]; simpl; try exact Hid.
  destruct (replace params init ri kwargs); simpl; [|exact Hid].
  rewrite lookup_insert_ne; [exact Hid|].
  intros Heq. apply (is_fresh (dom h)). rewrite Heq.
  apply elem_of_dom. now exists r.
Qed.

(** C9: assigning or deleting any attribute of an rdata raises
    [TypeError], for every name and value; running any operation of the
    rdata interface (assignment, deletion, [replace]) leaves every object
    that exists before it unchanged, [replace] allocating a new one. *)
Theorem C9_rdata_immutable (params : string -> list string)
    (init : string -> list pyval -> res Rdata) :
  (forall (r : Rdata) (name : string) (v : pyval), __setattr__ r name v = Err TypeError) /\
  (forall (r : Rdata) (name : string), __delattr__ r name = Err TypeError) /\
  (forall (h : Heap) (id : N) (r : Rdata) (name : string) (v : pyval),
     h !! id = Some r ->
     exec_op params init h (SetAttr id name v) = (Err TypeError, h) /\
     exec_op params init h (DelAttr id name) = (Err TypeError, h)) /\
  (forall (h : Heap) (op : rdata_op) (id : N) (r : Rdata),
     h !! id = Some r -> (exec_op params init h op).2 !! id = Some r).
Proof.
  split; [reflexivity|]. split; [reflexivity|]. split.
  - intros h id r name v Hid. simpl. now rewrite Hid.
  - apply exec_op_keeps.
Qed.

(** C9 witness: one generic rdata in the heap; assigning its [data] fails
    and a [replace] on it leaves it in place. *)
Lemma C9_rdata_immutable_witness :
  let h : Heap := {[0%N := mk_generic 1 9999 [x01]]} in
  exec_op ex_init_params ex_init h (SetAttr 0 "data" (PyBytes [x02])) = (Err TypeError, h) /\
  exec_op ex_init_params ex_init h (DelAttr 0 "data") = (Err TypeError, h) /\
  (exec_op ex_init_params ex_init h (Replace 0 [("data", PyBytes [x02])])).2 !! 0%N
    = Some (mk_generic 1 9999 [x01]).
Proof.
  intros h. destruct (C9_rdata_immutable ex_init_params ex_init) as (_ & _ & H3 & H4).
  split; [|split].
  - apply (H3 h 0%N (mk_generic 1 9999 [x01])). reflexivity.
  - apply (H3 h 0%N (mk_generic 1 9999 [x01]) "data" (PyBytes [x02])). reflexivity.
  - apply H4. reflexivity.
Defined.

Section ReplaceProps.

Variable params : string -> list string.
Variable init : string -> list pyval -> res Rdata.

(** The per-type classes keep the contract of [Rdata]'s constructors:
    [__init__] stores each of its parameters as the attribute of that
    name, and accepts any values for its fields once [rdclass] and
    [rdtype] are those of an existing instance of the class. *)
Hypothesis init_stores :
  forall n args r, init n args = Ok r ->
    rd_class r = Variant n /\
    forall i k, params n !! i = Some k -> rd_getattr r k = args !! i.

Hypothesis init_accepts :
  forall n (v : Rdata) args,
    rd_class v = Variant n -> length args = length (params n) ->
    (forall i k, params n !! i = Some k -> k = "rdclass" \/ k = "rdtype" ->
                 args !! i = rd_getattr v k) ->
    exists r, init n args = Ok r.

(** Every parameter of the constructor of [v]'s class is an attribute of
    [v], as after any construction. *)
Definition complete (v : Rdata) : Prop :=
  forall k, In k (init_parameters params (rd_class v)) -> rd_getattr v k <> None.

(** C8: [v.replace(f=x)], for a constructor parameter [f] other than
    [rdclass] and [rdtype], returns an instance of [v]'s class whose
    attribute [f] is [x] and whose other constructor parameters are those
    of [v]; and [replace] raises [AttributeError] whenever one of the
    given names is not a constructor parameter, or is [rdclass] or
    [rdtype]. *)
Theorem C8_replace_spec :
  (forall (v : Rdata) (f : string) (x : pyval),
     In f (init_parameters params (rd_class v)) -> f <> "rdclass" -> f <> "rdtype" ->
     complete v ->
     exists r, replace params init v [(f, x)] = Ok r /\
       rd_class r = rd_class v /\
       rd_getattr r f = Some x /\
       forall g, In g (init_parameters params (rd_class v)) -> g <> f ->
         rd_getattr r g = rd_getattr v g) /\
  (forall (v : Rdata) (kwargs : list (string * pyval)) (k : string),
     In k (map fst kwargs) ->
     ~ In k (init_parameters params (rd_class v)) \/ k = "rdclass" \/ k = "rdtype" ->
     replace params init v kwargs = Err AttributeError).
Proof.
  split.
  - intros v f x Hf Hc Ht Hcomp.
    set (ps := init_parameters params (rd_class v)) in *.
    assert (Hchk : check_kwargs ps [f] = Ok tt).
    { simpl. apply existsb_eqb_in in Hf. rewrite Hf. simpl.
      apply String.eqb_neq in Hc, Ht. now rewrite Hc, Ht. }
    destruct (replace_args_ok v [(f, x)] ps Hcomp) as (args & Hargs & Hlen & Hget).
    assert (Hval : forall i k, ps !! i = Some k ->
              args !! i = if String.eqb k f then Some x else rd_getattr v k).
    { intros i k Hk. rewrite (Hget i k Hk). simpl.
      destruct (String.eqb k f); reflexivity. }
    unfold replace. fold ps. simpl map. rewrite Hchk. simpl. rewrite Hargs. simpl.
    destruct (rd_class v) as [|n] eqn:Hcls.
    + (* GenericRdata *)
      subst ps. simpl in Hf, Hval, Hlen.
      destruct args as [|a0 [|a1 [|a2 [|a3 args]]]]; simpl in Hlen; try discriminate.
      pose proof (Hval 0%nat "rdclass" eq_refl) as H0.
      pose proof (Hval 1%nat "rdtype" eq_refl) as H1.
      pose proof (Hval 2%nat "data" eq_refl) as H2.
      simpl in H0, H1, H2.
      assert (Hfd : f = "data") by (destruct Hf as [<-|[<-|[<-|[]]]]; congruence).
      subst f. simpl in H0, H1, H2.
      unfold rd_getattr in H0, H1. simpl in H0, H1.
      injection H0 as ->. injection H1 as ->. injection H2 as ->.
      eexists. split; [reflexivity|]. split; [reflexivity|]. split; [reflexivity|].
      intros g Hg Hgf. simpl in Hg.
      destruct Hg as [<-|[<-|[<-|[]]]]; [reflexivity|reflexivity|congruence].
    + (* a per-type class *)
      simpl. subst ps. simpl in Hf, Hval, Hlen.
      destruct (init_accepts n v args Hcls Hlen) as [r Hr].
      { intros i k Hk Hk'. rewrite (Hval i k Hk).
        destruct (String.eqb_spec k f); [subst; destruct Hk'; congruence|reflexivity]. }
      destruct (init_stores n args r Hr) as [Hrc Hrget].
      exists r. split; [exact Hr|]. split; [now rewrite Hrc|].
      split.
      * apply list_elem_of_In, list_elem_of_lookup in Hf as [i Hi].
        rewrite (Hrget i f Hi), (Hval i f Hi), String.eqb_refl. reflexivity.
      * intros g Hg Hgf.
        apply list_elem_of_In, list_elem_of_lookup in Hg as [i Hi].
        rewrite (Hrget i g Hi), (Hval i g Hi).
        destruct (String.eqb_spec g f); [congruence|reflexivity].
  - intros v kwargs k Hin Hbad. unfold replace.
    now rewrite (check_kwargs_bad _ _ k Hin Hbad).
Qed.

End ReplaceProps.

Lemma ex_init_stores :
  forall n args r, ex_init n args = Ok r ->
    rd_class r = Variant n /\
    forall i k, ex_init_params n !! i = Some k -> rd_getattr r k = args !! i.
Proof.
  intros n args r H. unfold ex_init in H.
  destruct args as [|a0 [|a1 [|a2 rest]]]; simpl in H; try discriminate;
    destruct a0; try discriminate; destruct a1; try discriminate.
  simpl in H. injection H as <-. split; [reflexivity|].
  intros [|[|i]] k Hk; simpl in Hk; try discriminate; injection Hk as <-; reflexivity.
Qed.

Lemma ex_init_accepts :
  forall n (v : Rdata) args,
    rd_class v = Variant n -> length args = length (ex_init_params n) ->
    (forall i k, ex_init_params n !! i = Some k -> k = "rdclass" \/ k = "rdtype" ->
                 args !! i = rd_getattr v k) ->
    exists r, ex_init n args = Ok r.
Proof.
  intros n v args Hcls Hlen H.
  destruct args as [|a0 [|a1 [|a2 rest]]]; simpl in Hlen; try discriminate.
  pose proof (H 0%nat "rdclass" eq_refl (or_introl eq_refl)) as H0.
  pose proof (H 1%nat "rdtype" eq_refl (or_intror eq_refl)) as H1.
  unfold rd_getattr in H0, H1. simpl in H0, H1.
  injection H0 as ->. injection H1 as ->. eexists. reflexivity.
Qed.

(** C8 witness: on the generic rdata [GenericRdata(IN, 9999, b"\x01")],
    [replace(data=b"\x02")] and [replace(rdclass=3)]. *)
Lemma C8_replace_spec_witness :
  let v := mk_generic 1 9999 [x01] in
  (exists r, replace ex_init_params ex_init v [("data", PyBytes [x02])] = Ok r /\
     rd_class r = rd_class v /\
     rd_getattr r "data" = Some (PyBytes [x02]) /\
     forall g, In g (init_parameters ex_init_params (rd_class v)) -> g <> "data" ->
       rd_getattr r g = rd_getattr v g) /\
  replace ex_init_params ex_init v [("rdclass", PyInt 3)] = Err AttributeError.
Proof.
  intros v.
  destruct (C8_replace_spec ex_init_params ex_init ex_init_stores ex_init_accepts)
    as [H1 H2].
  split.
  - apply H1.
    + simpl. tauto.
    + discriminate.
    + discriminate.
    + intros k Hk. simpl in Hk.
      destruct Hk as [<-|[<-|[<-|[]]]]; discriminate.
  - apply (H2 v [("rdclass", PyInt 3)] "rdclass").
    + simpl. tauto.
    + right. left. reflexivity.
Defined.

(* ------------------------------------------------------------------ *)
(** ** The registry *)

Section RegistryProps.

Variable PyModule : Type.
Variable import_module : string -> option PyModule.
Variable module_getattr : PyModule -> string -> option RdataClass.
Variable rdclass_to_text : Z -> string.
Variable rdtype_to_text : Z -> string.
Variable variant_from_text : string -> Z -> Z -> M Rdata.
Variable variant_from_wire : string -> Z -> Z -> bytes -> nat -> nat -> M Rdata.

Local Abbreviation grc :=
  (get_rdata_class PyModule import_module module_getattr rdclass_to_text rdtype_to_text).
Local Abbreviation ic := (import_class PyModule import_module module_getattr).

Lemma grc_exact (c t : Z) (st : St) (k : RdataClass) :
  _rdata_classes st !! (c, t) = Some k -> grc c t st = (Ok k, st).
Proof. intros H. unfold get_rdata_class, bind, cache_get, ret. now rewrite H. Qed.

Lemma grc_any (c t : Z) (st : St) (k : RdataClass) :
  _rdata_classes st !! (c, t) = None ->
  _rdata_classes st !! (rdatatype_ANY, t) = Some k -> grc c t st = (Ok k, st).
Proof.
  intros H1 H2. unfold get_rdata_class, bind, cache_get, ret. now rewrite H1, H2.
Qed.

Lemma grc_specific (c t : Z) (st : St) (r : res RdataClass) :
  let tt := replace_dash (rdtype_to_text t) in
  _rdata_classes st !! (c, t) = None ->
  _rdata_classes st !! (rdatatype_ANY, t) = None ->
  ic (module_path (rdclass_to_text c) tt) tt = Some r ->
  grc c t st = match r with
               | Ok k => (Ok k, with_classes st (<[(c, t) := k]> (_rdata_classes st)))
               | Err e => (Err e, st)
               end.
Proof.
  intros tt H1 H2 H3.
  unfold get_rdata_class, load_by_convention, bind, cache_get, cache_set, ret, lift.
  rewrite H1, H2. simpl. fold tt. rewrite H3. now destruct r.
Qed.

Lemma grc_any_module (c t : Z) (st : St) (r : res RdataClass) :
  let tt := replace_dash (rdtype_to_text t) in
  _rdata_classes st !! (c, t) = None ->
  _rdata_classes st !! (rdatatype_ANY, t) = None ->
  ic (module_path (rdclass_to_text c) tt) tt = None ->
  ic (module_path "ANY" tt) tt = Some r ->
  grc c t st = match r with
               | Ok k => (Ok k, with_classes st (<[(c, t) := k]>
                                   (<[(rdataclass_ANY, t) := k]> (_rdata_classes st))))
               | Err e => (Err e, st)
               end.
Proof.
  intros tt H1 H2 H3 H4.
  unfold get_rdata_class, load_by_convention, bind, cache_get, cache_set, ret, lift.
  rewrite H1, H2. simpl. fold tt. rewrite H3, H4. now destruct r.
Qed.

Lemma grc_generic (c t : Z) (st : St) :
  let tt := replace_dash (rdtype_to_text t) in
  _rdata_classes st !! (c, t) = None ->
  _rdata_classes st !! (rdatatype_ANY, t) = None ->
  ic (module_path (rdclass_to_text c) tt) tt = None ->
  ic (module_path "ANY" tt) tt = None ->
  grc c t st = (Ok GenericRdata,
                with_classes st (<[(c, t) := GenericRdata]> (_rdata_classes st))).
Proof.
  intros tt H1 H2 H3 H4.
  unfold get_rdata_class, load_by_convention, bind, cache_get, cache_set, ret, lift.
  rewrite H1, H2. simpl. fold tt. now rewrite H3, H4.
Qed.

(** C2 (amended): [get_rdata_class(rdclass, rdtype)] returns (1) the
    class cached under (rdclass, rdtype), state unchanged; (2) else the
    class cached under (ANY, rdtype), state unchanged (nothing is cached
    under (rdclass, rdtype)); (3) else, when the module named by the class
    and type texts imports, its class (then cached under (rdclass,
    rdtype)) or the [AttributeError] of a missing class; (4) else, when the
    ANY module imports, its class (then cached under (ANY, rdtype) and
    (rdclass, rdtype)) or the [AttributeError]; (5) else [GenericRdata],
    cached under (rdclass, rdtype), after which every lookup of the key,
    with any module loader, returns [GenericRdata] without changing the
    state. *)
Theorem C2_get_rdata_class_resolution (c t : Z) (st : St) :
  let tt := replace_dash (rdtype_to_text t) in
  let cache := _rdata_classes st in
  (forall k, cache !! (c, t) = Some k -> grc c t st = (Ok k, st)) /\
  (forall k, cache !! (c, t) = None -> cache !! (rdatatype_ANY, t) = Some k ->
     grc c t st = (Ok k, st)) /\
  (forall r, cache !! (c, t) = None -> cache !! (rdatatype_ANY, t) = None ->
     ic (module_path (rdclass_to_text c) tt) tt = Some r ->
     grc c t st = match r with
                  | Ok k => (Ok k, with_classes st (<[(c, t) := k]> cache))
                  | Err e => (Err e, st)
                  end) /\
  (forall r, cache !! (c, t) = None -> cache !! (rdatatype_ANY, t) = None ->
     ic (module_path (rdclass_to_text c) tt) tt = None ->
     ic (module_path "ANY" tt) tt = Some r ->
     grc c t st = match r with
                  | Ok k => (Ok k, with_classes st (<[(c, t) := k]>
                                      (<[(rdataclass_ANY, t) := k]> cache)))
                  | Err e => (Err e, st)
                  end) /\
  (cache !! (c, t) = None -> cache !! (rdatatype_ANY, t) = None ->
     ic (module_path (rdclass_to_text c) tt) tt = None ->
     ic (module_path "ANY" tt) tt = None ->
     let st' := with_classes st (<[(c, t) := GenericRdata]> cache) in
     grc c t st = (Ok GenericRdata, st') /\
     forall (PM : Type) (im : string -> option PM) (mg : PM -> string -> option RdataClass)
            (ct tyt : Z -> string),
       get_rdata_class PM im mg ct tyt c t st' = (Ok GenericRdata, st')).
Proof.
  intros tt cache.
  split; [intros k; apply grc_exact|].
  split; [intros k; apply grc_any|].
  split; [intros r; apply grc_specific|].
  split; [intros r; apply grc_any_module|].
  intros H1 H2 H3 H4 st'. split; [now apply grc_generic|].
  intros PM im mg ct tyt.
  unfold get_rdata_class, bind, cache_get, ret. subst st'. simpl.
  now rewrite lookup_insert_eq.
Qed.

End RegistryProps.

(** C2 (counterexample): with [Foo] cached under (ANY, 9999) only, a
    lookup of (IN, 9999) returns [Foo] and leaves (IN, 9999) uncached,
    although the claim has it cached there. *)
Lemma C2_any_hit_not_cached_counterexample :
  let st := mkSt {[(255, 9999) := Variant "Foo"]} ∅ ∅ ∅ (mkTokenizer None []) in
  let '(r, st') := get_rdata_class unit (fun _ => None) (fun _ _ => None)
                     (fun _ => "IN") (fun _ => "TYPE9999") 1 9999 st in
  r = Ok (Variant "Foo") /\ _rdata_classes st' !! (1, 9999) = None.
Proof. vm_compute. split; reflexivity. Qed.

(** C2 witness: an empty registry and no module for type 9999. *)
Lemma C2_get_rdata_class_resolution_witness :
  let st := mkSt ∅ ∅ ∅ ∅ (mkTokenizer None []) in
  let st' := with_classes st (<[(1, 9999) := GenericRdata]> (_rdata_classes st)) in
  get_rdata_class unit (fun _ => None) (fun _ _ => None) (fun _ => "IN")
    (fun _ => "TYPE9999") 1 9999 st = (Ok GenericRdata, st') /\
  forall (PM : Type) (im : string -> option PM) (mg : PM -> string -> option RdataClass)
         (ct tyt : Z -> string),
    get_rdata_class PM im mg ct tyt 1 9999 st' = (Ok GenericRdata, st').
Proof.
  intros st st'.
  apply (C2_get_rdata_class_resolution unit (fun _ => None) (fun _ _ => None)
           (fun _ => "IN") (fun _ => "TYPE9999") 1 9999 st); reflexivity.
Defined.

(* ------------------------------------------------------------------ *)
(** ** register_type and the text dispatch *)

Section DispatchProps.

Variable PyModule : Type.
Variable import_module : string -> option PyModule.
Variable module_getattr : PyModule -> string -> option RdataClass.
Variable rdclass_to_text : Z -> string.
Variable rdtype_to_text : Z -> string.
Variable variant_from_text : string -> Z -> Z -> M Rdata.
Variable variant_from_wire : string -> Z -> Z -> bytes -> nat -> nat -> M Rdata.

Local Abbreviation grc :=
  (get_rdata_class PyModule import_module module_getattr rdclass_to_text rdtype_to_text).
Local Abbreviation reg :=
  (register_type PyModule import_module module_getattr rdclass_to_text rdtype_to_text).

(** The registry of [grc]'s final state answers the key with the class
    returned, by an exact entry or (for an ANY hit) the ANY entry. *)
Definition answers (st : St) (c t : Z) (k : RdataClass) : Prop :=
  _rdata_classes st !! (c, t) = Some k \/
  (_rdata_classes st !! (c, t) = None /\ _rdata_classes st !! (rdatatype_ANY, t) = Some k).

Lemma import_class_err (p n : string) (e : exn) :
  import_class PyModule import_module module_getattr p n = Some (Err e) ->
  e = AttributeError.
Proof.
  unfold import_class. destruct (import_module p) as [m|]; [|discriminate].
  destruct (module_getattr m n); congruence.
Qed.

Lemma grc_outcome (c t : Z) (st st1 : St) (r : res RdataClass) :
  grc c t st = (r, st1) ->
  match r with
  | Ok k => answers st1 c t k
  | Err e => e = AttributeError
  end.
Proof.
  unfold answers.
  set (tt := replace_dash (rdtype_to_text t)).
  destruct (_rdata_classes st !! (c, t)) as [k|] eqn:E1.
  { rewrite (grc_exact _ _ _ _ _ c t st k E1).
    intros H. injection H as <- <-. now left. }
  destruct (_rdata_classes st !! (rdatatype_ANY, t)) as [k|] eqn:E2.
  { rewrite (grc_any _ _ _ _ _ c t st k E1 E2).
    intros H. injection H as <- <-. now right. }
  destruct (import_class PyModule import_module module_getattr
              (module_path (rdclass_to_text c) tt) tt) as [r3|] eqn:E3.
  { rewrite (grc_specific _ _ _ _ _ c t st r3 E1 E2 E3).
    destruct r3 as [k|e]; intros H; injection H as <- <-; [|exact (import_class_err _ _ e E3)].
    left. apply lookup_insert_eq. }
  destruct (import_class PyModule import_module module_getattr
              (module_path "ANY" tt) tt) as [r4|] eqn:E4.
  { rewrite (grc_any_module _ _ _ _ _ c t st r4 E1 E2 E3 E4).
    destruct r4 as [k|e]; intros H; injection H as <- <-; [|exact (import_class_err _ _ e E4)].
    left. apply lookup_insert_eq. }
  rewrite (grc_generic _ _ _ _ _ c t st E1 E2 E3 E4).
  intros H. injection H as <- <-. left. apply lookup_insert_eq.
Qed.

Lemma grc_answers (c t : Z) (st : St) (k : RdataClass) :
  answers st c t k -> grc c t st = (Ok k, st).
Proof.
  intros [H|[H1 H2]].
  - now apply (grc_exact PyModule import_module module_getattr rdclass_to_text rdtype_to_text).
  - now apply (grc_any PyModule import_module module_getattr rdclass_to_text rdtype_to_text).
Qed.

(** The state after a successful [register_type]. *)
Definition registered (st : St) (c t : Z) (k : RdataClass) (text : string)
    (is_singleton : bool) : St :=
  mkSt (<[(c, t) := k]> (_rdata_classes st))
       (<[text := t]> (_by_text st))
       (<[t := text]> (_by_value st))
       (if is_singleton then {[t]} ∪ _singletons st else _singletons st)
       (st_tok st).

Lemma reg_unfold (impl : PyModule) (t : Z) (text : string) (sing : bool) (c : Z)
    (st : St) :
  reg impl t text sing c st =
  match grc c t st with
  | (Err e, st1) => (Err e, st1)
  | (Ok k, st1) =>
      if decide (k <> GenericRdata) then (Err (RdatatypeExists c t), st1)
      else match module_getattr impl (replace_dash text) with
           | Some k' => (Ok tt, registered st1 c t k' text sing)
           | None => (Err AttributeError, st1)
           end
  end.
Proof.
  unfold register_type at 1, bind at 1.
  destruct (grc c t st) as [[k|e] st1]; [|reflexivity].
  destruct (decide (k <> GenericRdata)); [reflexivity|].
  unfold bind, lift, cache_set, rdatatype_register_type.
  destruct (module_getattr impl (replace_dash text)); reflexivity.
Qed.

(** C4: [register_type] raises [RdatatypeExists] exactly when the key's
    resolution by [get_rdata_class] gives a class other than
    [GenericRdata]; when it gives [GenericRdata] and the implementation
    module has the named class, the key is bound to that class and the
    type's text and singleton flag are registered; so a second
    [register_type] for the key raises [RdatatypeExists] exactly when the
    class bound by the first one is not [GenericRdata]. *)
Theorem C4_register_type_exists (impl : PyModule) (t : Z) (text : string)
    (is_singleton : bool) (c : Z) (st : St) :
  (fst (reg impl t text is_singleton c st) = Err (RdatatypeExists c t) <->
   exists k st1, grc c t st = (Ok k, st1) /\ k <> GenericRdata) /\
  (forall st1 k,
     grc c t st = (Ok GenericRdata, st1) ->
     module_getattr impl (replace_dash text) = Some k ->
     reg impl t text is_singleton c st = (Ok tt, registered st1 c t k text is_singleton)) /\
  (forall st1 k (impl2 : PyModule) (text2 : string) (is_singleton2 : bool),
     grc c t st = (Ok GenericRdata, st1) ->
     module_getattr impl (replace_dash text) = Some k ->
     (fst (reg impl2 t text2 is_singleton2 c (registered st1 c t k text is_singleton))
        = Err (RdatatypeExists c t) <-> k <> GenericRdata)).
Proof.
  split; [|split].
  - rewrite reg_unfold.
    destruct (grc c t st) as [[k|e] st1] eqn:G.
    + destruct (decide (k <> GenericRdata)) as [Hk|Hk].
      * split; [intros _; now exists k, st1|reflexivity].
      * split.
        -- destruct (module_getattr impl (replace_dash text)); simpl; discriminate.
        -- intros (k' & st' & H & Hk'). injection H as <- <-. contradiction.
    + pose proof (grc_outcome c t st st1 (Err e) G) as He. simpl in He. subst e.
      split; [simpl; discriminate|].
      intros (k' & st' & H & _). discriminate.
  - intros st1 k G Hk. rewrite reg_unfold, G.
    destruct (decide (GenericRdata <> GenericRdata)); [contradiction|].
    now rewrite Hk.
  - intros st1 k impl2 text2 sing2 G Hk.
    rewrite reg_unfold.
    rewrite (grc_exact _ _ _ _ _ c t _ k) by (simpl; apply lookup_insert_eq).
    destruct (decide (k <> GenericRdata)) as [Hne|Hne].
    + split; [intros _; exact Hne|reflexivity].
    + split; [|intros H; contradiction].
      destruct (module_getattr impl2 (replace_dash text2)); simpl; discriminate.
Qed.

Local Abbreviation ft :=
  (from_text PyModule import_module module_getattr rdclass_to_text rdtype_to_text
     variant_from_text variant_from_wire).

(** A computation that leaves the registry as it is. *)
Definition keeps_classes {A} (m : M A) : Prop :=
  forall st r st', m st = (r, st') -> _rdata_classes st' = _rdata_classes st.

Lemma keeps_ret {A} (a : A) : keeps_classes (ret a).
Proof. intros st r st' H. now injection H as _ <-. Qed.

Lemma keeps_throw {A} (e : exn) : keeps_classes (@throw A e).
Proof. intros st r st' H. now injection H as _ <-. Qed.

Lemma keeps_lift {A} (x : res A) : keeps_classes (lift x).
Proof. intros st r st' H. now injection H as _ <-. Qed.

Lemma keeps_get_tok : keeps_classes get_tok.
Proof.
  intros st r st' H. unfold get_tok in H.
  destruct (tok_get (st_tok st)). now injection H as _ <-.
Qed.

Lemma keeps_with_tok {A} (f : Tokenizer -> res (A * Tokenizer)) :
  keeps_classes (with_tok f).
Proof.
  intros st r st' H. unfold with_tok in H.
  destruct (f (st_tok st)) as [[a t']|e]; now injection H as _ <-.
Qed.

Lemma keeps_bind {A B} (m : M A) (k : A -> M B) :
  keeps_classes m -> (forall a, keeps_classes (k a)) -> keeps_classes (bind m k).
Proof.
  intros Hm Hk st r st' H. unfold bind in H.
  destruct (m st) as [[a|e] st1] eqn:E.
  - rewrite (Hk a st1 r st' H). exact (Hm st _ st1 E).
  - injection H as _ <-. exact (Hm st _ st1 E).
Qed.

Lemma keeps_generic_from_text (c t : Z) : keeps_classes (generic_from_text c t).
Proof.
  unfold generic_from_text.
  apply keeps_bind; [apply keeps_get_tok|]. intros token.
  destruct (_ || _); [apply keeps_throw|].
  apply keeps_bind; [apply keeps_with_tok|]. intros n.
  apply keeps_bind; [apply keeps_with_tok|]. intros chunks.
  apply keeps_bind; [apply keeps_lift|]. intros data.
  destruct (negb _); [apply keeps_throw|apply keeps_ret].
Qed.

Lemma generic_from_text_ok (c t : Z) (st st' : St) (r : Rdata) :
  generic_from_text c t st = (Ok r, st') -> exists data, r = mk_generic c t data.
Proof.
  unfold generic_from_text, bind, get_tok, get_int, with_tok, lift, throw, ret.
  intros H.
  repeat match type of H with
         | context [match ?x with _ => _ end] => destruct x eqn:?
         end; try discriminate.
  injection H as <- _. eauto.
Qed.

Lemma tok_get_clears (t t2 : Tokenizer) (tk : token) :
  tok_get t = (tk, t2) -> ungotten_token t2 = None.
Proof.
  unfold tok_get. destruct (ungotten_token t) eqn:U.
  - intros H. now injection H as _ <-.
  - destruct (pending t); intros H; injection H as _ <-; [exact U|reflexivity].
Qed.

Lemma answers_same_classes (st st' : St) (c t : Z) (k : RdataClass) :
  _rdata_classes st' = _rdata_classes st -> answers st c t k -> answers st' c t k.
Proof. unfold answers. intros ->. tauto. Qed.

(** C3: the module-level [from_text]: when the registry resolves the key
    to [GenericRdata], [GenericRdata.from_text] is called directly with
    the tokenizer untouched; otherwise the next token [tk] is read and
    put back (reading it again gives [tk] and the same tokenizer), and if
    [tk] is not the identifier [\#] the resolved class's [from_text] is
    called, while if it is, the input is parsed by
    [GenericRdata.from_text] (whose error propagates) and the resulting
    bytes are decoded by the resolved class's [from_wire] (the lookup made
    by [from_wire] resolves the key to the same class). *)
Theorem C3_from_text_dispatch (c t : Z) (st st1 : St) (cls : RdataClass) :
  grc c t st = (Ok cls, st1) ->
  (cls = GenericRdata -> ft c t st = generic_from_text c t st1) /\
  (forall (tk : token) (t2 : Tokenizer),
     cls <> GenericRdata -> tok_get (st_tok st1) = (tk, t2) ->
     let st_peek := set_tok st1 (mkTokenizer (Some tk) (pending t2)) in
     tok_get (st_tok st_peek) = (tk, t2) /\
     (is_identifier tk && String.eqb (value tk) "\#" = false ->
        ft c t st = cls_from_text variant_from_text cls c t st_peek) /\
     (is_identifier tk && String.eqb (value tk) "\#" = true ->
        (forall e st3, generic_from_text c t st_peek = (Err e, st3) ->
                       ft c t st = (Err e, st3)) /\
        (forall r st3, generic_from_text c t st_peek = (Ok r, st3) ->
           exists data, r = mk_generic c t data /\
             ft c t st = cls_from_wire variant_from_wire cls c t data 0
                           (List.length data) st3))).
Proof.
  intros G. split.
  - intros ->. unfold from_text, bind at 1. now rewrite G.
  - intros tk t2 Hcls Htok st_peek.
    pose proof (tok_get_clears _ _ _ Htok) as U.
    assert (Hpeek : tok_get (st_tok st_peek) = (tk, t2)).
    { simpl. destruct t2 as [u p]. simpl in U. now subst u. }
    assert (Hft : ft c t st =
              (if is_identifier tk && String.eqb (value tk) "\#" then
                 bind (generic_from_text c t) (fun rdata =>
                 bind (generic_data rdata) (fun data =>
                 from_wire PyModule import_module module_getattr rdclass_to_text
                   rdtype_to_text variant_from_wire c t data 0 (List.length data)))
               else cls_from_text variant_from_text cls c t) st_peek).
    { unfold from_text, bind at 1. rewrite G.
      destruct (decide (cls <> GenericRdata)); [|contradiction].
      unfold bind at 1, get_tok. rewrite Htok.
      unfold bind at 1, unget_tok, with_tok. simpl. unfold tok_unget. rewrite U.
      reflexivity. }
    split; [exact Hpeek|]. split.
    + intros Hno. now rewrite Hft, Hno.
    + intros Hyes. rewrite Hft, Hyes. split.
      * intros e st3 He. unfold bind at 1. now rewrite He.
      * intros r st3 Hr.
        destruct (generic_from_text_ok c t _ _ _ Hr) as [data ->].
        exists data. split; [reflexivity|].
        unfold bind at 1. rewrite Hr.
        unfold generic_data, bind at 1, ret. simpl.
        unfold from_wire, bind.
        assert (Hans : answers st3 c t cls).
        { apply (answers_same_classes st1).
          - rewrite (keeps_generic_from_text c t st_peek _ st3 Hr). reflexivity.
          - exact (grc_outcome c t st st1 (Ok cls) G). }
        now rewrite (grc_answers c t st3 cls Hans).
Qed.

End DispatchProps.

(** C3 witness: type 9999 resolves to the class [TYPE9999]; the text
    [\# 1 ab] is read as generic syntax and decoded by that class's
    [from_wire]. *)
Lemma C3_from_text_dispatch_witness :
  let st0 := ex_state [ident "\#"; ident "1"; ident "ab"] in
  let grc0 := get_rdata_class unit ex_import ex_getattr (fun _ => "IN")
                (fun _ => "TYPE9999") in
  let st1 := snd (grc0 1 9999 st0) in
  let t2 := snd (tok_get (st_tok st1)) in
  let st_peek := set_tok st1 (mkTokenizer (Some (ident "\#")) (pending t2)) in
  let st3 := snd (generic_from_text 1 9999 st_peek) in
  exists data, mk_generic 1 9999 [xab] = mk_generic 1 9999 data /\
    from_text unit ex_import ex_getattr (fun _ => "IN") (fun _ => "TYPE9999")
      ex_variant_from_text ex_variant_from_wire 1 9999 st0 =
    cls_from_wire ex_variant_from_wire (Variant "TYPE9999") 1 9999 data 0
      (List.length data) st3.
Proof.
  intros st0 grc0 st1 t2 st_peek st3.
  destruct (C3_from_text_dispatch unit ex_import ex_getattr (fun _ => "IN")
              (fun _ => "TYPE9999") ex_variant_from_text ex_variant_from_wire
              1 9999 st0 st1 (Variant "TYPE9999") eq_refl) as [_ H].
  destruct (H (ident "\#") t2 ltac:(discriminate) eq_refl) as (_ & _ & H3).
  destruct (H3 eq_refl) as [_ Hok].
  exact (Hok (mk_generic 1 9999 [xab]) st3 eq_refl).
Defined.

(** C4 witness: registering the class [TYPE9999] of a module for (IN,
    9999) on an empty registry where no module is found for it, then
    registering again. *)
Lemma C4_register_type_exists_witness :
  let st0 := ex_state [] in
  let reg0 := register_type unit (fun _ => None) ex_getattr (fun _ => "IN")
                (fun _ => "TYPE9999") in
  let st1 := with_classes st0 (<[(1, 9999) := GenericRdata]> (_rdata_classes st0)) in
  reg0 tt 9999 "TYPE9999" false 1 st0
    = (Ok tt, registered st1 1 9999 (Variant "TYPE9999") "TYPE9999" false) /\
  (fst (reg0 tt 9999 "TYPE9999" false 1
          (registered st1 1 9999 (Variant "TYPE9999") "TYPE9999" false))
     = Err (RdatatypeExists 1 9999) <-> Variant "TYPE9999" <> GenericRdata).
Proof.
  intros st0 reg0 st1.
  destruct (C4_register_type_exists unit (fun _ => None) ex_getattr (fun _ => "IN")
              (fun _ => "TYPE9999") tt 9999 "TYPE9999" false 1 st0) as (_ & H2 & H3).
  split.
  - apply H2; reflexivity.
  - apply H3; reflexivity.
Defined.

(* ------------------------------------------------------------------ *)
(** ** GenericRdata.from_text *)

Lemma tok_get_int_err (t : Tokenizer) (e : exn) :
  tok_get_int t = Err e -> exists msg, e = SyntaxError msg.
Proof.
  unfold tok_get_int. destruct (tok_get t) as [tk t'].
  destruct (negb (is_identifier tk)); [intros H; injection H as <-; eauto|].
  destruct (_ || _); [intros H; injection H as <-; eauto|discriminate].
Qed.

Lemma unhexlify_err_len (n : nat) : forall (s : string) (e : exn),
  (String.length s <= n)%nat -> unhexlify s = Err e -> e = BinasciiError.
Proof.
  induction n as [n IH] using (well_founded_induction lt_wf).
  intros s e Hlen. destruct s as [|hi [|lo s']]; simpl.
  - discriminate.
  - congruence.
  - destruct (hex_digit hi), (hex_digit lo); try congruence.
    destruct (unhexlify s') as [rest|e'] eqn:E; simpl; [discriminate|].
    intros H. injection H as <-.
    simpl in Hlen. apply (IH (String.length s') ltac:(lia) s' e' ltac:(lia) E).
Qed.

Lemma unhexlify_err (s : string) (e : exn) :
  unhexlify s = Err e -> e = BinasciiError.
Proof. apply (unhexlify_err_len (String.length s)). lia. Qed.

Lemma generic_from_text_unfold (c ty : Z) (st : St) (tk : token) (t1 : Tokenizer) :
  tok_get (st_tok st) = (tk, t1) ->
  generic_from_text c ty st =
  if negb (is_identifier tk) || negb (String.eqb (value tk) "\#")
  then (Err (SyntaxError "generic rdata does not start with \#"), set_tok st t1)
  else match tok_get_int t1 with
       | Err e => (Err e, set_tok st t1)
       | Ok (n, t2) =>
           match read_chunks t2 with
           | Err e => (Err e, set_tok st t2)
           | Ok (cs, t3) =>
               match unhexlify (join_chunks cs) with
               | Err e => (Err e, set_tok st t3)
               | Ok data =>
                   if negb (Z.eqb (Z.of_nat (List.length data)) n)
                   then (Err (SyntaxError "generic rdata hex data has wrong length"),
                         set_tok st t3)
                   else (Ok (mk_generic c ty data), set_tok st t3)
               end
           end
       end.
Proof.
  intros Htok. unfold generic_from_text, bind at 1, get_tok. rewrite Htok.
  destruct (_ || _); [reflexivity|].
  unfold bind at 1, get_int, with_tok at 1. simpl.
  destruct (tok_get_int t1) as [[n t2]|e]; [|reflexivity].
  unfold bind at 1, with_tok at 1. simpl.
  destruct (read_chunks t2) as [[cs t3]|e]; [|reflexivity].
  unfold bind at 1, lift. simpl.
  destruct (unhexlify (join_chunks cs)) as [data|e]; [|reflexivity].
  destruct (negb _); reflexivity.
Qed.

(** C5 (counterexample): [\# 1 zz] (malformed hex) raises the hex
    decoder's [binascii.Error], not a syntax error. *)
Lemma C5_malformed_hex_counterexample :
  let st := ex_state [ident "\#"; ident "1"; ident "zz"] in
  fst (generic_from_text 1 9999 st) = Err BinasciiError /\
  forall msg, fst (generic_from_text 1 9999 st) <> Err (SyntaxError msg).
Proof.
  intros st. split; [reflexivity|]. intros msg. simpl. discriminate.
Qed.

(** C5 (amended): [GenericRdata.from_text] raises a syntax error when
    the first token is not the identifier [\#], when the length token is
    not an integer, and when the decoded data's length differs from the
    declared one; malformed hex (an odd number of digits or a character
    that is not a hex digit) raises [binascii.Error] instead; in every case
    the exception reaches the caller, and a value is returned only when
    all checks pass. *)
Theorem C5_generic_from_text_errors (c ty : Z) (st : St) (tk : token) (t1 : Tokenizer) :
  tok_get (st_tok st) = (tk, t1) ->
  ((is_identifier tk && String.eqb (value tk) "\#") = false ->
     fst (generic_from_text c ty st)
       = Err (SyntaxError "generic rdata does not start with \#")) /\
  ((is_identifier tk && String.eqb (value tk) "\#") = true ->
     (forall e, tok_get_int t1 = Err e ->
        fst (generic_from_text c ty st) = Err e /\ exists msg, e = SyntaxError msg) /\
     (forall n t2 cs t3,
        tok_get_int t1 = Ok (n, t2) -> read_chunks t2 = Ok (cs, t3) ->
        (forall e, unhexlify (join_chunks cs) = Err e ->
           fst (generic_from_text c ty st) = Err BinasciiError) /\
        (forall data, unhexlify (join_chunks cs) = Ok data ->
           fst (generic_from_text c ty st) =
           if Z.eqb (Z.of_nat (List.length data)) n then Ok (mk_generic c ty data)
           else Err (SyntaxError "generic rdata hex data has wrong length")))).
Proof.
  intros Htok. rewrite (generic_from_text_unfold c ty st tk t1 Htok).
  rewrite <- negb_andb. split.
  - intros Hno. now rewrite Hno.
  - intros Hyes. rewrite Hyes. simpl. split.
    + intros e He. rewrite He. split; [reflexivity|]. exact (tok_get_int_err t1 e He).
    + intros n t2 cs t3 Hn Hcs. rewrite Hn, Hcs. split.
      * intros e He. rewrite He. simpl. now rewrite (unhexlify_err _ e He).
      * intros data Hd. rewrite Hd. now destruct (Z.eqb _ n).
Qed.

(** C5 witness: the outcomes on [\], [\# x], [\# 1 zz], [\# 2 ab] and
    [\# 1 ab]. *)
Lemma C5_generic_from_text_errors_witness :
  fst (generic_from_text 1 9999 (ex_state [ident "\"]))
    = Err (SyntaxError "generic rdata does not start with \#") /\
  (fst (generic_from_text 1 9999 (ex_state [ident "\#"; ident "x"]))
     = Err (SyntaxError "expecting an integer") /\
   exists msg, SyntaxError "expecting an integer" = SyntaxError msg) /\
  fst (generic_from_text 1 9999 (ex_state [ident "\#"; ident "1"; ident "zz"]))
    = Err BinasciiError /\
  fst (generic_from_text 1 9999 (ex_state [ident "\#"; ident "2"; ident "ab"]))
    = Err (SyntaxError "generic rdata hex data has wrong length") /\
  fst (generic_from_text 1 9999 (ex_state [ident "\#"; ident "1"; ident "ab"]))
    = Ok (mk_generic 1 9999 [xab]).
Proof.
  split; [|split; [|split; [|split]]].
  - apply (proj1 (C5_generic_from_text_errors 1 9999 (ex_state [ident "\"])
             (ident "\") (mkTokenizer None []) eq_refl)).
    reflexivity.
  - apply (proj1 (proj2 (C5_generic_from_text_errors 1 9999
             (ex_state [ident "\#"; ident "x"]) (ident "\#")
             (mkTokenizer None [ident "x"]) eq_refl) eq_refl)).
    reflexivity.
  - apply (proj1 (proj2 (proj2 (C5_generic_from_text_errors 1 9999
             (ex_state [ident "\#"; ident "1"; ident "zz"]) (ident "\#")
             (mkTokenizer None [ident "1"; ident "zz"]) eq_refl) eq_refl)
             1 (mkTokenizer None [ident "zz"]) ["zz"%string] (mkTokenizer None [])
             eq_refl eq_refl) BinasciiError).
    reflexivity.
  - apply (proj2 (proj2 (proj2 (C5_generic_from_text_errors 1 9999
             (ex_state [ident "\#"; ident "2"; ident "ab"]) (ident "\#")
             (mkTokenizer None [ident "2"; ident "ab"]) eq_refl) eq_refl)
             2 (mkTokenizer None [ident "ab"]) ["ab"%string] (mkTokenizer None [])
             eq_refl eq_refl) [xab]).
    reflexivity.
  - apply (proj2 (proj2 (proj2 (C5_generic_from_text_errors 1 9999
             (ex_state [ident "\#"; ident "1"; ident "ab"]) (ident "\#")
             (mkTokenizer None [ident "1"; ident "ab"]) eq_refl) eq_refl)
             1 (mkTokenizer None [ident "ab"]) ["ab"%string] (mkTokenizer None [])
             eq_refl eq_refl) [xab]).
    reflexivity.
Defined.

(* ================================================================== *)
(** * Further properties of the module *)

(* ------------------------------------------------------------------ *)
(** ** Strings *)

Lemma string_app_cons (c : ascii) (a b : string) :
  (String c a ++ b)%string = String c (a ++ b).
Proof. reflexivity. Qed.

Lemma string_app_nil_l (s : string) : ("" ++ s)%string = s.
Proof. reflexivity. Qed.

Lemma string_app_nil_r (s : string) : (s ++ "")%string = s.
Proof. induction s as [|c s IH]; [reflexivity|now rewrite string_app_cons, IH]. Qed.

Lemma string_app_assoc (a b c : string) : ((a ++ b) ++ c)%string = (a ++ (b ++ c))%string.
Proof. induction a as [|x a IH]; [reflexivity|now rewrite !string_app_cons, IH]. Qed.

Lemma concat_empty_cons (x : string) (l : list string) :
  String.concat "" (x :: l) = (x ++ String.concat "" l)%string.
Proof. destruct l; simpl; [now rewrite string_app_nil_r|reflexivity]. Qed.

Lemma substring_zero (s : string) (i : nat) : substring i 0 s = EmptyString.
Proof.
  revert i. induction s as [|c s IH]; intros [|i]; simpl; auto.
Qed.

Lemma substring_length (s : string) (i k : nat) :
  String.length (substring i k s) = Nat.min k (String.length s - i).
Proof.
  revert i k. induction s as [|c s IH]; intros [|i] [|k]; simpl; auto;
    rewrite IH; lia.
Qed.

Lemma substring_split (s : string) (i k m : nat) :
  (substring i k s ++ substring (i + k) m s)%string = substring i (k + m) s.
Proof.
  revert i k m. induction s as [|c s IH]; intros [|i] k m.
  - destruct k, m; reflexivity.
  - destruct k, m; reflexivity.
  - destruct k as [|k]; simpl; [destruct m; reflexivity|].
    rewrite string_app_cons. f_equal. apply (IH 0%nat).
  - simpl. apply IH.
Qed.

Lemma substring_clamp (s : string) (i k : nat) :
  (String.length s - i <= k)%nat -> substring i k s = substring i (String.length s - i) s.
Proof.
  revert i k. induction s as [|c s IH]; intros [|i] [|k] H; simpl in *; auto; try lia.
  all: first [ f_equal; rewrite (IH 0%nat k) by lia; now rewrite Nat.sub_0_r
             | apply IH; lia ].
Qed.

Lemma substring_all (s : string) : substring 0 (String.length s) s = s.
Proof. induction s as [|c s IH]; simpl; [reflexivity|now rewrite IH]. Qed.

Lemma all_chars_app (p : ascii -> bool) (a b : string) :
  all_chars p (a ++ b) = all_chars p a && all_chars p b.
Proof.
  induction a as [|c a IH]; [reflexivity|].
  rewrite string_app_cons. simpl. now rewrite IH, andb_assoc.
Qed.

Lemma all_chars_substring (p : ascii -> bool) (s : string) (i k : nat) :
  all_chars p s = true -> all_chars p (substring i k s) = true.
Proof.
  revert i k. induction s as [|c s IH]; intros [|i] [|k] H; simpl in *; auto;
    apply andb_prop in H as [H1 H2]; auto.
  rewrite H1. simpl. auto.
Qed.

(* ------------------------------------------------------------------ *)
(** ** hexlify and _hexify *)

Lemma hex_byte (b : byte) :
  hex_digit (hex_char (Byte.to_N b / 16)) = Some (Byte.to_N b / 16)%N /\
  hex_digit (hex_char (Byte.to_N b mod 16)) = Some (Byte.to_N b mod 16)%N /\
  byte_of_N (16 * (Byte.to_N b / 16) + Byte.to_N b mod 16) = b.
Proof. destruct b; (split; [reflexivity|split; reflexivity]). Qed.

Lemma unhexlify_hexlify (d : bytes) : unhexlify (hexlify d) = Ok d.
Proof.
  induction d as [|b d IH]; [reflexivity|].
  simpl. destruct (hex_byte b) as (H1 & H2 & H3).
  rewrite H1, H2, IH. simpl. now rewrite H3.
Qed.

Lemma hexlify_hex (d : bytes) : all_chars is_hex_char (hexlify d) = true.
Proof.
  induction d as [|b d IH]; [reflexivity|].
  simpl. destruct (hex_byte b) as (H1 & H2 & _).
  unfold is_hex_char at 1 2. rewrite H1, H2. exact IH.
Qed.

Lemma range_up_lt (fuel i k L j : nat) : In j (range_up fuel i k L) -> (j < L)%nat.
Proof.
  revert i. induction fuel as [|f IH]; intros i H; simpl in H; [contradiction|].
  destruct (Nat.ltb_spec i L); [|contradiction].
  destruct H as [<-|H]; [assumption|exact (IH _ H)].
Qed.

Lemma chunks_concat (s : string) (k fuel i : nat) :
  (1 <= k)%nat -> (String.length s - i <= fuel * k)%nat ->
  String.concat "" (hex_chunks s k (range_up fuel i k (String.length s)))
  = substring i (String.length s - i) s.
Proof.
  intros Hk. revert i. induction fuel as [|f IH]; intros i Hf.
  - simpl. replace (String.length s - i)%nat with 0%nat by lia.
    now rewrite substring_zero.
  - simpl range_up. destruct (Nat.ltb_spec i (String.length s)) as [Hi|Hi].
    + unfold hex_chunks. simpl map. rewrite concat_empty_cons.
      change (map (fun i0 => substring i0 k s) (range_up f (i + k) k (String.length s)))
        with (hex_chunks s k (range_up f (i + k) k (String.length s))).
      rewrite IH by lia.
      destruct (Nat.le_gt_cases (i + k) (String.length s)) as [Hle|Hgt].
      * rewrite substring_split. f_equal. lia.
      * replace (String.length s - (i + k))%nat with 0%nat by lia.
        rewrite substring_zero, string_app_nil_r. apply substring_clamp. lia.
    + simpl. replace (String.length s - i)%nat with 0%nat by lia.
      now rewrite substring_zero.
Qed.

Lemma hexify_pos (data : bytes) (chunksize : Z) :
  0 < chunksize ->
  _hexify data chunksize =
  Some (String.concat " " (hex_chunks (hexlify data) (Z.to_nat chunksize)
          (range_up (S (String.length (hexlify data))) 0 (Z.to_nat chunksize)
             (String.length (hexlify data))))).
Proof.
  intros H. unfold _hexify, py_range0.
  destruct (Z.eqb_spec chunksize 0); [lia|].
  destruct (Z.ltb_spec 0 chunksize); [reflexivity|lia].
Qed.

Lemma hex_chunks_good (data : bytes) (k fuel : nat) :
  (1 <= k)%nat ->
  Forall (fun w => w <> EmptyString /\ (String.length w <= k)%nat
                   /\ all_chars is_hex_char w = true)
    (hex_chunks (hexlify data) k (range_up fuel 0 k (String.length (hexlify data)))).
Proof.
  intros Hk. apply List.Forall_forall. intros w Hw.
  unfold hex_chunks in Hw. apply in_map_iff in Hw as (j & <- & Hj).
  apply range_up_lt in Hj.
  pose proof (substring_length (hexlify data) j k) as HL.
  split; [|split].
  - intros E. rewrite E in HL. simpl in HL. lia.
  - lia.
  - apply all_chars_substring, hexlify_hex.
Qed.

Lemma hexify_words_ok (data : bytes) (chunksize : Z) :
  0 < chunksize ->
  exists words : list string,
    _hexify data chunksize = Some (String.concat " " words) /\
    Forall (fun w => w <> EmptyString /\ (String.length w <= Z.to_nat chunksize)%nat
                     /\ all_chars is_hex_char w = true) words /\
    unhexlify (String.concat "" words) = Ok data.
Proof.
  intros H. rewrite (hexify_pos data chunksize H).
  eexists. split; [reflexivity|]. split.
  - apply hex_chunks_good. lia.
  - rewrite chunks_concat by nia. rewrite Nat.sub_0_r, substring_all.
    apply unhexlify_hexlify.
Qed.





(* ------------------------------------------------------------------ *)
(** ** Decimal text *)

Lemma decimal_value_app (acc : Z) (a b : string) :
  decimal_value_acc acc (a ++ b) = decimal_value_acc (decimal_value_acc acc a) b.
Proof. revert acc. induction a as [|c a IH]; intros acc; [reflexivity|apply IH]. Qed.

Lemma all_digits_app (a b : string) : all_digits (a ++ b) = all_digits a && all_digits b.
Proof.
  induction a as [|c a IH]; [reflexivity|].
  rewrite string_app_cons. simpl. now rewrite IH, andb_assoc.
Qed.

Lemma digit_char_ok (d : N) :
  (d < 10)%N ->
  is_digit (digit_char d) = true /\
  Z.of_nat (nat_of_ascii (digit_char d) - 48) = Z.of_N d.
Proof.
  intros H.
  assert (d = 0 \/ d = 1 \/ d = 2 \/ d = 3 \/ d = 4 \/ d = 5 \/ d = 6 \/ d = 7
          \/ d = 8 \/ d = 9)%N as E by lia.
  repeat destruct E as [->|E]; try (split; reflexivity).
  subst. split; reflexivity.
Qed.

Lemma decimal_go_ok (f : nat) (n : N) :
  (N.to_nat n < f)%nat ->
  decimal_value_acc 0 (decimal_go f n) = Z.of_N n /\
  all_digits (decimal_go f n) = true /\ decimal_go f n <> EmptyString.
Proof.
  revert n. induction f as [|f IH]; intros n Hn; [lia|].
  simpl decimal_go. destruct (N.ltb_spec n 10) as [Hl|Hl].
  - destruct (digit_char_ok n Hl) as [D V]. simpl.
    rewrite D, V. split; [lia|split; [reflexivity|discriminate]].
  - assert (Hq : (N.to_nat (n / 10) < f)%nat).
    { assert (n / 10 < n)%N by (apply N.div_lt; lia). lia. }
    destruct (IH (n / 10)%N Hq) as (V & D & _).
    assert (Hm : (n mod 10 < 10)%N) by (apply N.mod_lt; lia).
    destruct (digit_char_ok _ Hm) as [D2 V2].
    rewrite decimal_value_app, V, all_digits_app, D. simpl.
    rewrite D2, V2. split; [|split; [reflexivity|]].
    + pose proof (N.div_mod n 10) as E. lia.
    + destruct (decimal_go f (n / 10)); discriminate.
Qed.

Lemma py_decimal_ok (n : nat) :
  decimal_value_acc 0 (py_decimal n) = Z.of_nat n /\
  all_digits (py_decimal n) = true /\ py_decimal n <> EmptyString.
Proof.
  unfold py_decimal. destruct (decimal_go_ok (S n) (N.of_nat n)) as (V & D & E); [lia|].
  rewrite V. split; [lia|auto].
Qed.

(* ------------------------------------------------------------------ *)
(** ** Words *)


Lemma split_words_word (w s cur : string) :
  no_space w = true -> split_words (w ++ s) cur = split_words s (cur ++ w).
Proof.
  revert cur. induction w as [|c w IH]; intros cur H.
  - now rewrite string_app_nil_r.
  - simpl in H. apply andb_prop in H as [H1 H2].
    rewrite string_app_cons. simpl. apply negb_true_iff in H1. rewrite H1.
    rewrite IH by exact H2. now rewrite string_app_assoc.
Qed.

Lemma split_words_space (s cur : string) :
  split_words (String " " s) cur = (if String.eqb cur "" then [] else [cur]) ++ split_words s "".
Proof. reflexivity. Qed.

Lemma split_words_concat (ws : list string) :
  Forall (fun w => w <> EmptyString /\ no_space w = true) ws ->
  split_words (String.concat " " ws) "" = ws.
Proof.
  induction ws as [|w ws IH]; intros H; [reflexivity|].
  inversion H as [|? ? [Hne Hns] Hrest]; subst.
  destruct ws as [|w2 ws].
  - simpl. rewrite <- (string_app_nil_r w) at 1.
    rewrite split_words_word by exact Hns. simpl. rewrite string_app_nil_l.
    destruct (String.eqb_spec w ""); [contradiction|reflexivity].
  - change (String.concat " " (w :: w2 :: ws))
      with (w ++ String " " (String.concat " " (w2 :: ws)))%string.
    rewrite split_words_word by exact Hns. rewrite split_words_space, !string_app_nil_l.
    destruct (String.eqb_spec w ""); [contradiction|].
    simpl. f_equal. now apply IH.
Qed.

Lemma hex_no_space (w : string) : all_chars is_hex_char w = true -> no_space w = true.
Proof.
  unfold no_space. induction w as [|c w IH]; [reflexivity|].
  simpl. intros H. apply andb_prop in H as [H1 H2]. rewrite IH by exact H2.
  destruct (Ascii.eqb_spec c " "%char); [subst; discriminate|reflexivity].
Qed.

Lemma digits_no_space (w : string) : all_digits w = true -> no_space w = true.
Proof.
  unfold no_space. induction w as [|c w IH]; [reflexivity|].
  simpl. intros H. apply andb_prop in H as [H1 H2]. rewrite IH by exact H2.
  destruct (Ascii.eqb_spec c " "%char); [subst; discriminate|reflexivity].
Qed.

Lemma read_chunks_list_idents (ws : list string) :
  read_chunks_list (map ident ws) = (ws, []).
Proof. induction ws as [|w ws IH]; [reflexivity|]. simpl. now rewrite IH. Qed.

(** [GenericRdata.to_text()] succeeds on every generic rdata, and
    [GenericRdata.from_text], reading the space-separated words of that
    text as identifier tokens, returns the same rdata. *)
Theorem generic_text_round_trip (c t : Z) (data : bytes) (st : St) :
  exists text : string,
    generic_to_text (mk_generic c t data) = Ok text /\
    fst (generic_from_text c t (set_tok st (mkTokenizer None (map ident (split_words text "")))))
    = Ok (mk_generic c t data).
Proof.
  destruct (hexify_words_ok data _hex_chunksize) as (ws & Hh & Hg & Hu); [reflexivity|].
  destruct (py_decimal_ok (List.length data)) as (V & D & NE).
  assert (Ed : rd_getattr (mk_generic c t data) "data" = Some (PyBytes data))
    by reflexivity.
  unfold generic_to_text. rewrite Ed, Hh.
  eexists. split; [reflexivity|].
  assert (Hw : split_words ("\# " ++ py_decimal (List.length data) ++ " " ++
                            String.concat " " ws)%string ""
               = "\#"%string :: py_decimal (List.length data) :: ws).
  { change ("\# " ++ ?x)%string with (String "\"%char (String "#"%char (String " "%char x))).
    simpl. change (" " ++ ?x)%string with (String " "%char x).
    rewrite split_words_word by now apply digits_no_space.
    rewrite split_words_space, !string_app_nil_l.
    destruct (String.eqb_spec (py_decimal (List.length data)) ""); [contradiction|].
    simpl. f_equal. f_equal. apply split_words_concat.
    eapply Forall_impl; [exact Hg|]. intros w (Hne & _ & Hx). split; [exact Hne|].
    now apply hex_no_space. }
  rewrite Hw.
  unfold generic_from_text, bind, get_tok, set_tok. simpl.
  unfold get_int, with_tok, tok_get_int. simpl.
  rewrite D. destruct (String.eqb_spec (py_decimal (List.length data)) ""); [contradiction|].
  simpl. unfold read_chunks. simpl. rewrite read_chunks_list_idents. simpl.
  unfold lift, join_chunks. rewrite Hu. simpl. rewrite V, Z.eqb_refl. reflexivity.
Qed.


(** [GenericRdata.from_wire] takes exactly the [rdlen] bytes at [current]
    of the message, whatever precedes or follows them, and leaves the
    state as it is; [to_wire] of the result writes those bytes back. *)
Theorem generic_wire_round_trip (vt : string -> Rdata -> res bytes) (c t : Z)
    (pre data post : bytes) (st : St) :
  generic_from_wire c t (pre ++ data ++ post) (List.length pre) (List.length data) st
  = (Ok (mk_generic c t data), st) /\
  to_wire vt (mk_generic c t data) = Ok data.
Proof.
  split; [|reflexivity].
  unfold generic_from_wire, wire_slice, bind, lift, ret.
  rewrite !length_app.
  destruct (Nat.leb_spec (List.length pre) (List.length pre + (List.length data + List.length post))); [|lia].
  destruct (Nat.leb_spec (List.length pre + List.length data) (List.length pre + (List.length data + List.length post))); [|lia].
  simpl. rewrite skipn_app, skipn_all, Nat.sub_diag. simpl.
  replace (List.length pre + List.length data - List.length pre)%nat with (List.length data) by lia.
  rewrite drop_0, take_app_length. reflexivity.
Qed.

(** [to_generic()] gives a [GenericRdata] of the same class and type that
    compares equal to the original in both directions and has the same
    hash, provided the original's wire form with no origin is its wire
    form relative to the root. *)
Theorem to_generic_equal (vt vt_none : string -> Rdata -> res bytes) (py_hash : bytes -> Z)
    (r : Rdata) (d : bytes) :
  to_wire vt_none r = Ok d -> to_wire vt r = Ok d ->
  exists g, to_generic vt_none r = Ok g /\ rd_class g = GenericRdata /\
    rdclass g = rdclass r /\ rdtype g = rdtype r /\
    op_eq vt g r = Ok true /\ op_eq vt r g = Ok true /\
    __hash__ vt py_hash g = __hash__ vt py_hash r.
Proof.
  intros Hn Hr. unfold to_generic. rewrite Hn. simpl.
  eexists. split; [reflexivity|]. do 3 (split; [reflexivity|]).
  assert (Hg : to_wire vt (mk_generic (rdclass r) (rdtype r) d) = Ok d) by reflexivity.
  unfold op_eq, __eq__, differ, _cmp, to_digestable, __hash__. rewrite Hg, Hr. simpl.
  rewrite !Z.eqb_refl. simpl.
  assert (E : bytes_eqb d d = true) by (apply bytes_eqb_eq; reflexivity).
  rewrite E. unfold to_digestable. rewrite Hr. auto.
Qed.

Lemma lor_shift_add (a b : Z) :
  0 <= b < 65536 -> Z.lor (Z.shiftl a 16) b = a * 65536 + b.
Proof.
  intros Hb.
  assert (Hl : Z.land (Z.shiftl a 16) b = 0).
  { apply Z.bits_inj'. intros n Hn. rewrite Z.land_spec, Z.bits_0.
    destruct (Z.lt_ge_cases n 16) as [Hlt|Hge].
    - rewrite Z.shiftl_spec_low by lia. reflexivity.
    - rewrite (Z.bits_above_log2 b n); [apply andb_false_r|lia|].
      destruct (Z.eq_dec b 0) as [->|Hne]; [simpl; lia|].
      assert (Z.log2 b < 16) by (apply Z.log2_lt_pow2; lia). lia. }
  rewrite <- Z.lxor_lor by exact Hl.
  rewrite <- Z.add_nocarry_lxor by exact Hl.
  rewrite Z.shiftl_mul_pow2 by lia. reflexivity.
Qed.

(** For a 16-bit [rdtype] and a non-negative [covers()], the low 16 bits of
    [extended_rdatatype()] are [rdtype] and the bits above are
    [covers()]; for [GenericRdata], which keeps the base [covers()]
    returning [NONE], it is [rdtype] itself. *)
Theorem extended_rdatatype_split (vc : string -> Rdata -> Z) (r : Rdata) :
  0 <= rdtype r < 65536 -> 0 <= covers vc r ->
  Z.land (extended_rdatatype vc r) 65535 = rdtype r /\
  Z.shiftr (extended_rdatatype vc r) 16 = covers vc r /\
  (rd_class r = GenericRdata -> extended_rdatatype vc r = rdtype r).
Proof.
  intros Ht Hc. unfold extended_rdatatype.
  rewrite lor_shift_add by exact Ht.
  split; [|split].
  - change 65535 with (Z.ones 16). rewrite Z.land_ones by lia.
    rewrite Z.add_comm, Z.mod_add by lia. apply Z.mod_small. lia.
  - rewrite Z.shiftr_div_pow2 by lia. change (2 ^ 16) with 65536.
    rewrite Z.add_comm, Z.div_add by lia. rewrite Z.div_small by lia. lia.
  - intros Hg. unfold covers. rewrite Hg. reflexivity.
Qed.

Lemma extended_rdatatype_split_witness :
  (0 <= rdtype (mkRdata (Variant "RRSIG") 1 46 []) < 65536 /\
   0 <= covers (fun _ _ => 2) (mkRdata (Variant "RRSIG") 1 46 [])) /\
  Z.land (extended_rdatatype (fun _ _ => 2) (mkRdata (Variant "RRSIG") 1 46 [])) 65535 = 46 /\
  Z.shiftr (extended_rdatatype (fun _ _ => 2) (mkRdata (Variant "RRSIG") 1 46 [])) 16 = 2.
Proof.
  split; [split; [simpl; lia|unfold covers; simpl; lia]|].
  destruct (extended_rdatatype_split (fun _ _ => 2) (mkRdata (Variant "RRSIG") 1 46 []))
    as (H1 & H2 & _); [simpl; lia|unfold covers; simpl; lia|].
  split; [exact H1|exact H2].
Defined.

(* ------------------------------------------------------------------ *)
(** ** _escapify *)

Lemma escape_byte_printable (b : byte) :
  all_chars (fun ch => Nat.leb 32 (nat_of_ascii ch) && Nat.ltb (nat_of_ascii ch) 127)
    (escape_byte (Byte.to_N b)) = true.
Proof. destruct b; reflexivity. Qed.

(** Every character of [_escapify(q)] is printable ASCII (codes 32 to 126). *)
Theorem escapify_printable (q : bytes) :
  all_chars (fun ch => Nat.leb 32 (nat_of_ascii ch) && Nat.ltb (nat_of_ascii ch) 127)
    (_escapify q) = true.
Proof.
  induction q as [|b q IH]; [reflexivity|].
  change (_escapify (b :: q)) with (escape_byte (Byte.to_N b) ++ _escapify q)%string.
  rewrite all_chars_app, escape_byte_printable, IH. reflexivity.
Qed.

Lemma unescape_escape_byte (b : byte) (s : string) :
  unescape (escape_byte (Byte.to_N b) ++ s) = Byte.to_N b :: unescape s.
Proof. destruct b; reflexivity. Qed.

Lemma unescape_escapify (q : bytes) : unescape (_escapify q) = map Byte.to_N q.
Proof.
  induction q as [|b q IH]; [reflexivity|].
  change (_escapify (b :: q)) with (escape_byte (Byte.to_N b) ++ _escapify q)%string.
  rewrite unescape_escape_byte, IH. reflexivity.
Qed.

(** [_escapify] loses no information: two byte strings with the same
    escaped text are equal. *)
Theorem escapify_injective (q1 q2 : bytes) : _escapify q1 = _escapify q2 -> q1 = q2.
Proof.
  intros H. apply (f_equal unescape) in H. rewrite !unescape_escapify in H.
  revert q2 H. induction q1 as [|b q1 IH]; intros [|b2 q2] H; simpl in H;
    try discriminate; [reflexivity|].
  injection H as Hb Hq. f_equal; [now apply byte_to_N_inj|now apply IH].
Qed.

Lemma escapify_injective_witness :
  _escapify [x22] = _escapify [x22] /\ [x22] = [x22].
Proof. split; [reflexivity|]. apply escapify_injective. reflexivity. Defined.

(* ------------------------------------------------------------------ *)
(** ** _constify *)

Lemma cval_ind_deep (P : cval -> Prop)
  (Hi : forall z, P (CInt z)) (Hs : forall s, P (CStr s)) (Hb : forall b, P (CBytes b))
  (Hn : P CNone) (Ha : forall b, P (CByteArray b))
  (Ht : forall l, Forall P l -> P (CTuple l)) (Hl : forall l, Forall P l -> P (CList l))
  (Ho : forall h, P (CObj h)) :
  forall o, P o.
Proof.
  refine (fix go (o : cval) : P o :=
    match o with
    | CInt z => Hi z
    | CStr s => Hs s
    | CBytes b => Hb b
    | CNone => Hn
    | CByteArray b => Ha b
    | CTuple l => Ht l ((fix gol (l : list cval) : Forall P l :=
                           match l return Forall P l with
                           | [] => @List.Forall_nil _ P
                           | x :: l' => @List.Forall_cons _ P x l' (go x) (gol l')
                           end) l)
    | CList l => Hl l ((fix gol (l : list cval) : Forall P l :=
                          match l return Forall P l with
                          | [] => @List.Forall_nil _ P
                          | x :: l' => @List.Forall_cons _ P x l' (go x) (gol l')
                          end) l)
    | CObj h => Ho h
    end).
Qed.




Lemma map_idem {A} (f : A -> A) (l : list A) :
  Forall (fun x => f (f x) = f x) l -> map (fun x => f (f x)) l = map f l.
Proof. induction 1; simpl; congruence. Qed.

(** [_constify] returns a hashable value as it is, and applying it twice
    gives the same result as applying it once. *)
Theorem constify_idempotent (o : cval) :
  (hashable o = true -> _constify o = o) /\ _constify (_constify o) = _constify o.
Proof.
  split.
  - destruct o; simpl; try discriminate; auto. intros H. now rewrite H.
  - induction o using cval_ind_deep; simpl; auto.
    + destruct (forallb hashable l) eqn:E; simpl; [now rewrite E|].
      destruct (forallb hashable (map _constify l)); [reflexivity|].
      f_equal. rewrite map_map. now apply map_idem.
    + destruct (forallb hashable (map _constify l)); [reflexivity|].
      f_equal. rewrite map_map. now apply map_idem.
Qed.

Lemma constify_idempotent_witness :
  hashable (CTuple [CInt 1]) = true /\ _constify (CTuple [CInt 1]) = CTuple [CInt 1].
Proof. split; [reflexivity|]. apply (proj1 (constify_idempotent (CTuple [CInt 1]))). reflexivity. Defined.

Lemma to_generic_equal_witness :
  let r := mkRdata (Variant "A") 1 2 [] in
  let vt := fun (_ : string) (_ : Rdata) => Ok [x01] in
  (to_wire vt r = Ok [x01] /\ to_wire vt r = Ok [x01]) /\
  exists g, to_generic vt r = Ok g /\ rd_class g = GenericRdata /\
    rdclass g = rdclass r /\ rdtype g = rdtype r /\
    op_eq vt g r = Ok true /\ op_eq vt r g = Ok true /\
    __hash__ vt (fun _ => 0) g = __hash__ vt (fun _ => 0) r.
Proof.
  intros r vt. split; [split; reflexivity|].
  apply (to_generic_equal vt vt (fun _ => 0) r [x01]); reflexivity.
Defined.


Section RegistryInvariants.

Variable PyModule : Type.
Variable import_module : string -> option PyModule.
Variable module_getattr : PyModule -> string -> option RdataClass.
Variable rdclass_to_text : Z -> string.
Variable rdtype_to_text : Z -> string.

Local Abbreviation grc :=
  (get_rdata_class PyModule import_module module_getattr rdclass_to_text rdtype_to_text).

Lemma insert_keeps (m : gmap (Z * Z) RdataClass) (key' key : Z * Z) (v k : RdataClass) :
  m !! key' = None -> m !! key = Some k -> <[key' := v]> m !! key = Some k.
Proof.
  intros H1 H2. rewrite lookup_insert_ne; [exact H2|]. intros ->. congruence.
Qed.

(** [get_rdata_class] never removes or rebinds an entry of the registry,
    whether it returns or raises, and changes no other part of the
    state. *)
Theorem get_rdata_class_only_adds (c t : Z) (st st1 : St) (r : res RdataClass) :
  grc c t st = (r, st1) ->
  (forall key k, _rdata_classes st !! key = Some k -> _rdata_classes st1 !! key = Some k) /\
  _by_text st1 = _by_text st /\ _by_value st1 = _by_value st /\
  _singletons st1 = _singletons st /\ st_tok st1 = st_tok st.
Proof.
  set (tt := replace_dash (rdtype_to_text t)).
  destruct (_rdata_classes st !! (c, t)) as [k|] eqn:E1.
  { rewrite (grc_exact _ _ _ _ _ c t st k E1).
    intros H. injection H as <- <-. auto. }
  destruct (_rdata_classes st !! (rdatatype_ANY, t)) as [k|] eqn:E2.
  { rewrite (grc_any _ _ _ _ _ c t st k E1 E2).
    intros H. injection H as <- <-. auto. }
  destruct (import_class PyModule import_module module_getattr
              (module_path (rdclass_to_text c) tt) tt) as [r3|] eqn:E3.
  { rewrite (grc_specific _ _ _ _ _ c t st r3 E1 E2 E3).
    destruct r3 as [k|e]; intros H; injection H as <- <-; [|auto].
    simpl. repeat split; auto. intros key k' Hk. now apply insert_keeps. }
  destruct (import_class PyModule import_module module_getattr
              (module_path "ANY" tt) tt) as [r4|] eqn:E4.
  { rewrite (grc_any_module _ _ _ _ _ c t st r4 E1 E2 E3 E4).
    destruct r4 as [k|e]; intros H; injection H as <- <-; [|auto].
    simpl. repeat split; auto. intros key k' Hk.
    rewrite lookup_insert_ne by (intros <-; congruence).
    rewrite lookup_insert_ne; [exact Hk|].
    intros <-. unfold rdataclass_ANY, rdatatype_ANY in *. congruence. }
  rewrite (grc_generic _ _ _ _ _ c t st E1 E2 E3 E4).
  intros H. injection H as <- <-. simpl. repeat split; auto.
  intros key k' Hk. now apply insert_keeps.
Qed.

Lemma grc_reread (c t : Z) (st st1 : St) (k : RdataClass) :
  grc c t st = (Ok k, st1) -> grc c t st1 = (Ok k, st1).
Proof.
  intros H.
  pose proof (grc_outcome PyModule import_module module_getattr rdclass_to_text
                rdtype_to_text c t st st1 (Ok k) H) as A.
  exact (grc_answers PyModule import_module module_getattr rdclass_to_text
           rdtype_to_text c t st1 k A).
Qed.

(** After a successful [get_rdata_class], a second call with the same key
    returns the same class and changes nothing, whichever branch resolved
    the first. *)
Theorem get_rdata_class_idempotent (c t : Z) (st st1 : St) (k : RdataClass) :
  grc c t st = (Ok k, st1) -> grc c t st1 = (Ok k, st1).
Proof. exact (grc_reread c t st st1 k). Qed.

End RegistryInvariants.

Lemma get_rdata_class_only_adds_witness :
  let st0 := with_classes (ex_state []) {[(1, 1) := Variant "A"]} in
  let st1 := with_classes st0 (<[(1, 9999) := GenericRdata]> (_rdata_classes st0)) in
  get_rdata_class unit (fun _ => None) (fun _ _ => None) (fun _ => "IN")
    (fun _ => "TYPE9999") 1 9999 st0 = (Ok GenericRdata, st1) /\
  _rdata_classes st1 !! (1, 1) = Some (Variant "A").
Proof.
  intros st0 st1. split; [reflexivity|].
  apply (proj1 (get_rdata_class_only_adds unit (fun _ => None) (fun _ _ => None)
    (fun _ => "IN") (fun _ => "TYPE9999") 1 9999 st0 st1 (Ok GenericRdata) eq_refl)).
  reflexivity.
Defined.

Lemma get_rdata_class_idempotent_witness :
  let st0 := ex_state [] in
  let st1 := with_classes st0 (<[(1, 9999) := GenericRdata]> (_rdata_classes st0)) in
  get_rdata_class unit (fun _ => None) (fun _ _ => None) (fun _ => "IN")
    (fun _ => "TYPE9999") 1 9999 st0 = (Ok GenericRdata, st1) /\
  get_rdata_class unit (fun _ => None) (fun _ _ => None) (fun _ => "IN")
    (fun _ => "TYPE9999") 1 9999 st1 = (Ok GenericRdata, st1).
Proof.
  intros st0 st1. split; [reflexivity|].
  apply (get_rdata_class_idempotent unit (fun _ => None) (fun _ _ => None)
    (fun _ => "IN") (fun _ => "TYPE9999") 1 9999 st0).
  reflexivity.
Defined.

(* ------------------------------------------------------------------ *)
(** ** The comparison methods *)

(** [__ne__] is the negation of [__eq__] for every [other], rdata or not,
    and raises exactly when [__eq__] raises. *)
Theorem ne_negates_eq (vt : string -> Rdata -> res bytes) (a : Rdata) (o : pyobj) :
  __ne__ vt a o = (let! b := __eq__ vt a o in Ok (negb b)).
Proof.
  destruct o as [b|v]; [|reflexivity]. unfold __ne__, __eq__.
  destruct (differ a b); [reflexivity|]. destruct (_cmp vt a b); reflexivity.
Qed.

(** [__le__] returns [__lt__ or __eq__] and [__ge__] returns
    [__gt__ or __eq__]; where [__lt__] (resp. [__gt__]) returns
    [NotImplemented] or raises, [__le__] (resp. [__ge__]) does the same. *)
Theorem le_ge_from_lt_gt_eq (vt : string -> Rdata -> res bytes) (a : Rdata) (o : pyobj) :
  __le__ vt a o = match __lt__ vt a o, __eq__ vt a o with
                  | Ok (PyBool x), Ok y => Ok (PyBool (x || y))
                  | r, _ => r
                  end /\
  __ge__ vt a o = match __gt__ vt a o, __eq__ vt a o with
                  | Ok (PyBool x), Ok y => Ok (PyBool (x || y))
                  | r, _ => r
                  end.
Proof.
  destruct o as [b|v]; [|split; reflexivity].
  unfold __le__, __lt__, __ge__, __gt__, ordering_method, __eq__.
  destruct (differ a b); [split; reflexivity|].
  destruct (_cmp vt a b) as [z|e]; [|split; reflexivity].
  simpl. split; do 2 f_equal.
  - destruct (Z.leb_spec z 0), (Z.ltb_spec z 0), (Z.eqb_spec z 0); simpl; lia.
  - destruct (Z.leb_spec 0 z), (Z.ltb_spec 0 z), (Z.eqb_spec z 0); simpl; lia.
Qed.

(* ------------------------------------------------------------------ *)
(** ** _truncate_bitmap, applied again *)

Lemma drop_zero_bytes_idem (l : bytes) : drop_zero_bytes (drop_zero_bytes l) = drop_zero_bytes l.
Proof.
  induction l as [|b l IH]; [reflexivity|]. simpl.
  destruct (N.eqb (Byte.to_N b) 0) eqn:E; [exact IH|]. simpl. now rewrite E.
Qed.

Lemma drop_zero_bytes_suffix (l : bytes) : exists j, drop_zero_bytes l = skipn j l.
Proof.
  induction l as [|b l [j IH]]; [now exists 0%nat|]. simpl.
  destruct (N.eqb (Byte.to_N b) 0); [now exists (S j)|now exists 0%nat].
Qed.

Lemma drop_zero_bytes_nil (l : bytes) :
  drop_zero_bytes l = [] -> Forall (fun b => N.eqb (Byte.to_N b) 0 = true) l.
Proof.
  induction l as [|b l IH]; intros H; [constructor|]. simpl in H.
  destruct (N.eqb (Byte.to_N b) 0) eqn:E; [constructor; auto|discriminate].
Qed.

Lemma drop_zero_bytes_zeros (l : bytes) :
  Forall (fun b => N.eqb (Byte.to_N b) 0 = true) l -> drop_zero_bytes l = [].
Proof. induction 1 as [|b l Hb _ IH]; [reflexivity|]. simpl. now rewrite Hb. Qed.

Lemma strip_idem (w : bytes) : strip_trailing_zeros (strip_trailing_zeros w) = strip_trailing_zeros w.
Proof. unfold strip_trailing_zeros. now rewrite rev_involutive, drop_zero_bytes_idem. Qed.

Lemma strip_prefix (w : bytes) : exists k, strip_trailing_zeros w = firstn k w.
Proof.
  unfold strip_trailing_zeros. destruct (drop_zero_bytes_suffix (rev w)) as [j ->].
  rewrite skipn_rev, rev_involutive. eexists. reflexivity.
Qed.

(** [_truncate_bitmap(what)] is a prefix of [what], and applying it to its
    own result changes nothing. *)
Theorem truncate_bitmap_prefix_idempotent (what : bytes) :
  (exists k, _truncate_bitmap what = firstn k what) /\
  _truncate_bitmap (_truncate_bitmap what) = _truncate_bitmap what.
Proof.
  split.
  - rewrite truncate_bitmap_strip.
    destruct (strip_trailing_zeros what) eqn:E; [now exists 1%nat|].
    rewrite <- E. apply strip_prefix.
  - rewrite (truncate_bitmap_strip what).
    destruct (strip_trailing_zeros what) as [|b s] eqn:E.
    + rewrite truncate_bitmap_strip.
      unfold strip_trailing_zeros in E. apply (f_equal (@rev byte)) in E.
      rewrite rev_involutive in E. apply drop_zero_bytes_nil in E.
      apply Forall_rev in E. rewrite rev_involutive in E.
      assert (Z : strip_trailing_zeros (firstn 1 what) = []).
      { unfold strip_trailing_zeros. rewrite drop_zero_bytes_zeros; [reflexivity|].
        apply Forall_rev. destruct what as [|x w]; [constructor|].
        inversion E; subst. simpl. constructor; [assumption|constructor]. }
      rewrite Z. destruct what as [|x w]; reflexivity.
    + rewrite truncate_bitmap_strip. rewrite <- E, strip_idem, E. reflexivity.
Qed.

Section RegisterFailure.

Variable PyModule : Type.
Variable import_module : string -> option PyModule.
Variable module_getattr : PyModule -> string -> option RdataClass.
Variable rdclass_to_text : Z -> string.
Variable rdtype_to_text : Z -> string.

Local Abbreviation grc :=
  (get_rdata_class PyModule import_module module_getattr rdclass_to_text rdtype_to_text).
Local Abbreviation reg :=
  (register_type PyModule import_module module_getattr rdclass_to_text rdtype_to_text).

(** When the key resolves to [GenericRdata] but the implementation module
    has no class of the given name, [register_type] raises
    [AttributeError] and registers nothing; the [GenericRdata] binding
    that the lookup cached stays, so the key still resolves to
    [GenericRdata]. *)
Theorem register_type_missing_class (impl : PyModule) (t : Z) (text : string)
    (is_singleton : bool) (c : Z) (st st1 : St) :
  grc c t st = (Ok GenericRdata, st1) ->
  module_getattr impl (replace_dash text) = None ->
  reg impl t text is_singleton c st = (Err AttributeError, st1) /\
  grc c t st1 = (Ok GenericRdata, st1).
Proof.
  intros G Hm. rewrite reg_unfold, G.
  destruct (decide (GenericRdata <> GenericRdata)) as [Hne|_]; [now contradiction Hne|].
  rewrite Hm. split; [reflexivity|].
  exact (grc_reread _ _ _ _ _ c t st st1 GenericRdata G).
Qed.

End RegisterFailure.

Lemma register_type_missing_class_witness :
  let st0 := ex_state [] in
  let st1 := with_classes st0 (<[(1, 9999) := GenericRdata]> (_rdata_classes st0)) in
  (get_rdata_class unit (fun _ => None) (fun _ _ => None) (fun _ => "IN")
     (fun _ => "TYPE9999") 1 9999 st0 = (Ok GenericRdata, st1) /\
   (fun (_ : unit) (_ : string) => @None RdataClass) tt (replace_dash "TYPE9999") = None) /\
  register_type unit (fun _ => None) (fun _ _ => None) (fun _ => "IN")
    (fun _ => "TYPE9999") tt 9999 "TYPE9999" false 1 st0 = (Err AttributeError, st1).
Proof.
  intros st0 st1. split; [split; reflexivity|].
  apply (register_type_missing_class unit (fun _ => None) (fun _ _ => None)
    (fun _ => "IN") (fun _ => "TYPE9999") tt 9999 "TYPE9999" false 1 st0 st1);
    reflexivity.
Defined.
